(** * Provider search endpoint ([docs/back_end.py])

    A shallow embedding of the Flask handler [search_providers]: the parsing
    of the query-string parameters, the construction of the two SQL texts
    (count and results), and the execution block with its
    [try/except/finally] around the connection.

    The Python built-ins the handler calls ([float], [int], the [math]
    functions registered as SQL functions) are an interface, [PyRuntime];
    every theorem is proved for an arbitrary implementation of it.  The
    database engine is first a parameter of the handler (section
    [Handler]) and then a model of SQLite's treatment of the statements
    the handler builds (module [Sqlite]). *)

From Stdlib Require Import String Ascii List ZArith QArith Bool.
Import ListNotations.

Local Open Scope list_scope.
Local Open Scope string_scope.

(** ** The Python runtime the handler relies on *)

(** [None] stands for a raised exception: [ValueError] for the two
    string conversions, any exception for a [math] function called by
    SQLite as a user-defined function. *)
Class PyRuntime : Type := {
  float : Type;
  (** the double written as a numeric literal: [25], [3958.8] *)
  float_of_Q : Q -> float;
  (** [float(s)] for a [str] *)
  float_of_str : string -> option float;
  (** [int(s)] for a [str] *)
  int_of_str : string -> option Z;
  math_radians : float -> option float;
  math_cos : float -> option float;
  math_sin : float -> option float;
  math_acos : float -> option float;
  (** SQLite's arithmetic and comparison on REAL values *)
  fmul : float -> float -> float;
  fadd : float -> float -> float;
  fsub : float -> float -> float;
  flt : float -> float -> bool
}.

(** Exceptions, with the text [str(e)] gives. *)
Inductive exn : Type :=
| TypeError (msg : string)
| ValueError (msg : string)
| IndexError (msg : string)
| SqliteError (msg : string).

Definition str_exn (e : exn) : string :=
  match e with
  | TypeError m | ValueError m | IndexError m | SqliteError m => m
  end.

(** What [request.args.get(key, default)] can hand to [float] or [int]:
    a string of the query string, the integer default, or [None]. *)
Inductive pyval : Type :=
| PyNone
| PyStr (s : string)
| PyInt (z : Z).

(** The query string: a multi-dict, [get] returns the first value of a key. *)
Definition query_args : Type := list (string * string).

Fixpoint args_get (args : query_args) (key : string) (default : pyval) : pyval :=
  match args with
  | [] => default
  | (k, v) :: rest => if String.eqb k key then PyStr v else args_get rest key default
  end.

(** [if taxonomy:] -- a string is true when it is not empty. *)
Definition truthy (s : string) : bool :=
  match s with
  | EmptyString => false
  | String _ _ => true
  end.

(** ** Configuration *)

Definition RESULTS_PER_PAGE : Z := 20.

(** ** SQL values, rows and bound parameters *)

Section Data.
Context {rt : PyRuntime}.

Inductive sqlval : Type :=
| VNull
| VInt (z : Z)
| VReal (x : float)
| VText (s : string)
(** the TEXT of the [taxonomy] column, a JSON array, kept decoded *)
| VCodes (codes : list string).

(** A row of the table [providers]. *)
Record provider : Type := mkProvider {
  NPI : string;
  Name : string;
  Address : string;
  City : string;
  State : string;
  PostalCode : string;
  latitude : sqlval;
  longitude : sqlval;
  taxonomy : list string
}.

Definition database : Type := list provider.

(** A value bound to a named parameter of a statement. *)
Inductive binding : Type :=
| BFloat (x : float)
| BStr (s : string)
| BInt (z : Z).

Definition bindings : Type := list (string * binding).

(** A fetched row, [dict(row)]: column name and value, in column order. *)
Definition row_dict : Type := list (string * sqlval).

(** *** 1. Get query parameters *)

Definition py_float (v : pyval) : exn + float :=
  match v with
  | PyNone => inl (TypeError "float() argument must be a string or a real number, not 'NoneType'")
  | PyInt z => inr (float_of_Q (inject_Z z))
  | PyStr s =>
      match float_of_str s with
      | Some x => inr x
      | None => inl (ValueError "could not convert string to float")
      end
  end.

Definition py_int (v : pyval) : exn + Z :=
  match v with
  | PyNone => inl (TypeError "int() argument must be a string, a bytes-like object or a real number, not 'NoneType'")
  | PyInt z => inr z
  | PyStr s =>
      match int_of_str s with
      | Some z => inr z
      | None => inl (ValueError "invalid literal for int() with base 10")
      end
  end.

(** [request.args.get('taxonomy', "")] is always a string. *)
Definition get_taxonomy (args : query_args) : string :=
  match args_get args "taxonomy" (PyStr "") with
  | PyStr s => s
  | _ => ""
  end.

Record search_params : Type := mkParams {
  user_lat : float;
  user_lon : float;
  radius : float;
  taxonomy_filter : string;
  offset : Z
}.

(** The body of the first [try], statement by statement. *)
Definition parse_params (args : query_args) : exn + search_params :=
  match py_float (args_get args "lat" PyNone) with
  | inl e => inl e
  | inr lat =>
  match py_float (args_get args "lon" PyNone) with
  | inl e => inl e
  | inr lon =>
  match py_float (args_get args "radius" (PyInt 25)) with
  | inl e => inl e
  | inr rad =>
  let tax := get_taxonomy args in
  match py_int (args_get args "offset" (PyInt 0)) with
  | inl e => inl e
  | inr off => inr (mkParams lat lon rad tax off)
  end end end end.

(** *** 2. Build the SQL query *)

Definition LF : string := String (ascii_of_nat 10) EmptyString.

Definition haversine_formula : string :=
  LF ++ "    (3958.8 * acos("
  ++ LF ++ "        cos(radians(:user_lat)) * cos(radians(p.latitude)) *"
  ++ LF ++ "        cos(radians(p.longitude) - radians(:user_lon)) +"
  ++ LF ++ "        sin(radians(:user_lat)) * sin(radians(p.latitude))"
  ++ LF ++ "    ))"
  ++ LF ++ "    ".

Definition query_params (p : search_params) : bindings :=
  [ ("user_lat", BFloat (user_lat p));
    ("user_lon", BFloat (user_lon p));
    ("radius", BFloat (radius p));
    ("taxonomy", BStr (taxonomy_filter p));
    ("limit", BInt RESULTS_PER_PAGE);
    ("offset", BInt (offset p)) ].

(** [base_query], after the [if taxonomy: ... else: base_query += ...]. *)
Definition base_query (taxonomy : string) : string :=
  let base :=
    LF ++ "    SELECT"
    ++ LF ++ "        p.NPI, p.Name, p.Address, p.City, p.State, p.PostalCode,"
    ++ LF ++ "        p.latitude, p.longitude, p.taxonomy,"
    ++ LF ++ "        " ++ haversine_formula ++ " AS distance"
    ++ LF ++ "    FROM"
    ++ LF ++ "        providers p"
    ++ LF ++ "    " in
  if truthy taxonomy then base else base ++ " GROUP BY p.NPI".

Definition taxonomy_join : string :=
  "LEFT JOIN json_each(p.taxonomy) AS t_join ON 1=1".

Definition where_clauses (taxonomy : string) : list string :=
  let clauses := ["p.latitude IS NOT NULL AND p.latitude != ''"] in
  if truthy taxonomy then (clauses ++ ["t_join.value = :taxonomy"])%list else clauses.

Definition having_clauses : list string := ["distance < :radius"].

(** *** 3. Build two queries (count and results) *)

Definition count_query (taxonomy : string) : string :=
  LF ++ "    SELECT COUNT(*)"
  ++ LF ++ "    FROM ("
  ++ LF ++ "        SELECT p.NPI, " ++ haversine_formula ++ " AS distance"
  ++ LF ++ "        FROM providers p"
  ++ LF ++ "        " ++ (if truthy taxonomy then taxonomy_join else "")
  ++ LF ++ "        WHERE " ++ String.concat " AND " (where_clauses taxonomy)
  ++ LF ++ "        " ++ (if truthy taxonomy then "" else "GROUP BY p.NPI")
  ++ LF ++ "        HAVING " ++ String.concat " AND " having_clauses
  ++ LF ++ "    )"
  ++ LF ++ "    ".

Definition results_query (taxonomy : string) : string :=
  LF ++ "    " ++ base_query taxonomy
  ++ LF ++ "    " ++ (if truthy taxonomy then taxonomy_join else "")
  ++ LF ++ "    WHERE " ++ String.concat " AND " (where_clauses taxonomy)
  ++ LF ++ "    HAVING " ++ String.concat " AND " having_clauses
  ++ LF ++ "    ORDER BY distance"
  ++ LF ++ "    LIMIT :limit"
  ++ LF ++ "    OFFSET :offset"
  ++ LF ++ "    ".

End Data.

(** ** 4. Execute queries and return JSON *)

Section Handler.
Context {rt : PyRuntime}.

(** What the handler does to the dataset, in order: a statement is
    executed with its text and the values bound to its named
    parameters.  The [print] calls of the two [except] branches write
    to the console only and are left out. *)
Inductive event : Type :=
| Connect
| Execute (sql : string) (params : bindings)
| Close.

(** A computation that may raise, and appends to the log of dataset
    events. *)
Definition IO (A : Type) : Type := list event -> (exn + A) * list event.

Definition ret {A : Type} (a : A) : IO A := fun tr => (inr a, tr).

Definition raise {A : Type} (e : exn) : IO A := fun tr => (inl e, tr).

Definition bind {A B : Type} (m : IO A) (k : A -> IO B) : IO B :=
  fun tr =>
    match m tr with
    | (inr a, tr') => k a tr'
    | (inl e, tr') => (inl e, tr')
    end.

Definition emit (ev : event) : IO unit := fun tr => (inr tt, (tr ++ [ev])%list).

Notation "x <- m ;; k" := (bind m (fun x => k))
  (at level 61, m at next level, right associativity).

(** [try: body except Exception as e: handler(e) finally: final]. *)
Definition try_except_finally {A : Type}
    (body : IO A) (handler : exn -> IO A) (final : IO unit) : IO A :=
  fun tr =>
    let '(r, tr1) := body tr in
    let '(r', tr2) := match r with
                      | inr a => (inr a, tr1)
                      | inl e => handler e tr1
                      end in
    let '(_, tr3) := final tr2 in
    (r', tr3).

(** Whether a connection is open at the end of a log. *)
Definition connection_open (tr : list event) : bool :=
  fold_left (fun o ev => match ev with
                         | Connect => true
                         | Close => false
                         | Execute _ _ => o
                         end) tr false.

(** The body of a JSON response. *)
Inductive body : Type :=
| Payload (results : list row_dict) (total : sqlval) (offset : Z) (limit : Z)
| ErrorBody (error : string) (details : option string).

(** Body and HTTP status. *)
Definition response : Type := (body * Z)%type.

Definition status (r : response) : Z := snd r.

Definition body_results (r : response) : option (list row_dict) :=
  match fst r with Payload rs _ _ _ => Some rs | ErrorBody _ _ => None end.

Definition body_total (r : response) : option sqlval :=
  match fst r with Payload _ t _ _ => Some t | ErrorBody _ _ => None end.

(** [conn.execute(sql, parameters)] followed by fetching every row: the
    engine, run on the stored rows. *)
Variable execute : string -> bindings -> database -> exn + list row_dict.

(** [get_db_conn()]: opening the database file and registering the four
    [math] functions of [PyRuntime]; taken to succeed ([sqlite3.connect]
    creates the file when it is absent). *)
Definition get_db_conn : IO unit := emit Connect.

Definition conn_execute (sql : string) (params : bindings) (db : database)
  : IO (list row_dict) :=
  fun tr => (execute sql params db, (tr ++ [Execute sql params])%list).

Definition conn_close : IO unit := emit Close.

(** [cursor.fetchone()[0]]: the first column of the first row. *)
Definition first_column (rows : list row_dict) : exn + sqlval :=
  match rows with
  | [] => inl (TypeError "'NoneType' object is not subscriptable")
  | [] :: _ => inl (IndexError "No item with that key")
  | ((_, v) :: _) :: _ => inr v
  end.

Definition fetchone_0 (rows : list row_dict) : IO sqlval :=
  match first_column rows with
  | inl e => raise e
  | inr v => ret v
  end.

(** The two [except] branches of the execution block. *)
Definition except_response (e : exn) : response :=
  match e with
  | SqliteError _ =>
      (ErrorBody "A database error occurred." (Some (str_exn e)), 500%Z)
  | _ =>
      (ErrorBody "An unexpected server error occurred." (Some (str_exn e)), 500%Z)
  end.

Definition database_section (p : search_params) (db : database) : IO response :=
  let taxonomy := taxonomy_filter p in
  _ <- get_db_conn ;;
  try_except_finally
    (count_rows <- conn_execute (count_query taxonomy) (query_params p) db ;;
     total_results <- fetchone_0 count_rows ;;
     results <- conn_execute (results_query taxonomy) (query_params p) db ;;
     ret (Payload results total_results (offset p) RESULTS_PER_PAGE, 200%Z))
    (fun e => ret (except_response e))
    conn_close.

(** The handler of [/api/search]: the response and the log of dataset
    events. *)
Definition search_providers (args : query_args) (db : database)
  : response * list event :=
  match parse_params args with
  | inl _ =>
      ((ErrorBody "Invalid query parameters. 'lat', 'lon', and 'radius' must be numbers." None,
        400%Z), [])
  | inr p =>
      match database_section p db [] with
      | (inr r, tr) => (r, tr)
      | (inl e, tr) =>
          (* not reached: both [except] branches return a response *)
          ((ErrorBody (str_exn e) None, 500%Z), tr)
      end
  end.

End Handler.

(** ** SQLite on the statements of the handler

    [conn.execute] hands the SQL text to SQLite, which first compiles it
    (tokens, clause grammar, name and aggregate checks) and only then runs
    it over the rows.  The model follows these stages for the fragment of
    SQL the handler writes: one [SELECT] with its clauses, over the table
    [providers p] or over one parenthesised sub-select.  Keywords are
    matched as the handler spells them (upper case). *)
Module Sqlite.

(** *** Tokens *)

Definition is_space (c : ascii) : bool :=
  let n := nat_of_ascii c in
  ((n =? 32) || (n =? 10) || (n =? 9) || (n =? 13))%nat.

(** Parentheses and commas are tokens of their own. *)
Definition is_punct (c : ascii) : bool :=
  let n := nat_of_ascii c in
  ((n =? 40) || (n =? 41) || (n =? 44))%nat.

Definition flush (word : string) (ts : list string) : list string :=
  if truthy word then word :: ts else ts.

Fixpoint tokens_from (word : string) (s : string) : list string :=
  match s with
  | EmptyString => flush word []
  | String c s' =>
      if is_space c then flush word (tokens_from "" s')
      else if is_punct c then flush word (String c "" :: tokens_from "" s')
      else tokens_from (word ++ String c "") s'
  end.

Definition tokens (sql : string) : list string := tokens_from "" sql.

Definition token_eqb (a b : string) : bool := String.eqb a b.

Fixpoint tokens_eqb (a b : list string) : bool :=
  match a, b with
  | [], [] => true
  | x :: a', y :: b' => token_eqb x y && tokens_eqb a' b'
  | _, _ => false
  end.

(** *** Clauses of a [SELECT] *)

Inductive keyword : Type :=
| KSelect | KFrom | KJoin | KWhere | KGroup | KHaving | KOrder | KLimit | KOffset.

Definition keyword_of (t : string) : option keyword :=
  if token_eqb t "SELECT" then Some KSelect
  else if token_eqb t "FROM" then Some KFrom
  else if token_eqb t "LEFT" then Some KJoin
  else if token_eqb t "WHERE" then Some KWhere
  else if token_eqb t "GROUP" then Some KGroup
  else if token_eqb t "HAVING" then Some KHaving
  else if token_eqb t "ORDER" then Some KOrder
  else if token_eqb t "LIMIT" then Some KLimit
  else if token_eqb t "OFFSET" then Some KOffset
  else None.

Definition keyword_text (k : keyword) : string :=
  match k with
  | KSelect => "SELECT" | KFrom => "FROM" | KJoin => "LEFT" | KWhere => "WHERE"
  | KGroup => "GROUP" | KHaving => "HAVING" | KOrder => "ORDER"
  | KLimit => "LIMIT" | KOffset => "OFFSET"
  end.

(** The place of a clause in the grammar of a select statement:
    [SELECT .. FROM .. JOIN .. WHERE .. GROUP BY .. HAVING .. ORDER BY ..
    LIMIT .. OFFSET ..]. *)
Definition rank (k : keyword) : nat :=
  match k with
  | KSelect => 1 | KFrom => 2 | KJoin => 3 | KWhere => 4 | KGroup => 5
  | KHaving => 6 | KOrder => 7 | KLimit => 8 | KOffset => 9
  end.

Definition keyword_eqb (a b : keyword) : bool := (rank a =? rank b)%nat.

Definition clause : Type := (keyword * list string)%type.

Definition depth_after (depth : nat) (t : string) : nat :=
  if token_eqb t "(" then S depth
  else if token_eqb t ")" then pred depth
  else depth.

(** The tokens before the first keyword, and the clauses: a keyword
    outside every parenthesis opens a clause. *)
Fixpoint split_clauses (depth : nat) (ts : list string)
  : list string * list clause :=
  match ts with
  | [] => ([], [])
  | t :: rest =>
      let '(leading, cls) := split_clauses (depth_after depth t) rest in
      match (if (depth =? 0)%nat then keyword_of t else None) with
      | Some k => ([], (k, leading) :: cls)
      | None => (t :: leading, cls)
      end
  end.

(** The keyword of the first clause that is out of place after a clause
    of rank [prev]. *)
Fixpoint misplaced (prev : nat) (cls : list clause) : option keyword :=
  match cls with
  | [] => None
  | (k, _) :: rest =>
      if (prev <? rank k)%nat then misplaced (rank k) rest else Some k
  end.

Fixpoint clause_of (k : keyword) (cls : list clause) : option (list string) :=
  match cls with
  | [] => None
  | (k', b) :: rest => if keyword_eqb k k' then Some b else clause_of k rest
  end.

Definition dquote : string := String (ascii_of_nat 34) EmptyString.

Definition syntax_error (near : string) : string :=
  "near " ++ dquote ++ near ++ dquote ++ ": syntax error".

(** *** Syntax *)

Inductive select : Type :=
| Select (cols : list string) (from : from_item) (rest : list clause)
with from_item : Type :=
| NoFrom
| FromTable (ts : list string)
| FromSelect (sub : select).

Fixpoint parse (fuel : nat) (ts : list string) : string + select :=
  match fuel with
  | O => inl "parser stack overflow"
  | S fuel' =>
      match split_clauses 0 ts with
      | (t :: _, _) => inl (syntax_error t)
      | ([], []) => inl "incomplete input"
      | ([], (KSelect, cols) :: cls) =>
          match misplaced (rank KSelect) cls with
          | Some k => inl (syntax_error (keyword_text k))
          | None =>
              match cls with
              | (KFrom, "(" :: inner) :: rest =>
                  if token_eqb (last inner "") ")" then
                    match parse fuel' (removelast inner) with
                    | inl e => inl e
                    | inr sub => inr (Select cols (FromSelect sub) rest)
                    end
                  else inl "incomplete input"
              | (KFrom, table) :: rest => inr (Select cols (FromTable table) rest)
              | rest => inr (Select cols NoFrom rest)
              end
          end
      | ([], (k, _) :: _) => inl (syntax_error (keyword_text k))
      end
  end.

(** *** Names and aggregates *)

Inductive column : Type :=
| CNPI | CName | CAddress | CCity | CState | CPostalCode
| CLatitude | CLongitude | CTaxonomy
(** [<haversine_formula> AS distance] *)
| CDistance.

Inductive where_atom : Type :=
(** [p.latitude IS NOT NULL] *)
| LatitudeNotNull
(** [p.latitude != ''] *)
| LatitudeNotEmpty
(** [t_join.value = :taxonomy] *)
| TaxonomyEquals.

Record rows_plan : Type := mkPlan {
  q_cols : list column;
  q_join : bool;
  q_where : list where_atom;
  q_group : bool;
  q_having : bool;
  q_order : bool;
  q_limit : bool;
  q_offset : bool
}.

Inductive plan : Type :=
| PRows (q : rows_plan)
(** [SELECT COUNT( * ) FROM (q)] *)
| PCount (q : rows_plan).

(** The groups between the separators that are outside every
    parenthesis. *)
Fixpoint split_top (sep : string) (depth : nat) (ts : list string)
  : list (list string) :=
  match ts with
  | [] => [[]]
  | t :: rest =>
      let groups := split_top sep (depth_after depth t) rest in
      if (depth =? 0)%nat && token_eqb t sep then [] :: groups
      else match groups with
           | [] => [[t]]
           | g :: gs => (t :: g) :: gs
           end
  end.

Definition unsupported : string := "statement outside the modelled fragment".

Definition no_such_column (t : string) : string := "no such column: " ++ t.

(** A HAVING clause needs a GROUP BY clause or an aggregate in the
    result columns. *)
Definition having_non_aggregate : string :=
  "HAVING clause on a non-aggregate query".

Definition column_of (item : list string) : string + column :=
  match item with
  | [t] =>
      if token_eqb t "p.NPI" then inr CNPI
      else if token_eqb t "p.Name" then inr CName
      else if token_eqb t "p.Address" then inr CAddress
      else if token_eqb t "p.City" then inr CCity
      else if token_eqb t "p.State" then inr CState
      else if token_eqb t "p.PostalCode" then inr CPostalCode
      else if token_eqb t "p.latitude" then inr CLatitude
      else if token_eqb t "p.longitude" then inr CLongitude
      else if token_eqb t "p.taxonomy" then inr CTaxonomy
      else inl (no_such_column t)
  | _ =>
      if tokens_eqb item (tokens haversine_formula ++ ["AS"; "distance"])%list
      then inr CDistance else inl unsupported
  end.

Fixpoint columns_of (items : list (list string)) : string + list column :=
  match items with
  | [] => inr []
  | item :: rest =>
      match column_of item, columns_of rest with
      | inl e, _ => inl e
      | _, inl e => inl e
      | inr c, inr cs => inr (c :: cs)
      end
  end.

Definition atom_of (join : bool) (ts : list string) : string + where_atom :=
  if tokens_eqb ts ["p.latitude"; "IS"; "NOT"; "NULL"] then inr LatitudeNotNull
  else if tokens_eqb ts ["p.latitude"; "!="; "''"] then inr LatitudeNotEmpty
  else if tokens_eqb ts ["t_join.value"; "="; ":taxonomy"] then
    if join then inr TaxonomyEquals else inl (no_such_column "t_join.value")
  else inl unsupported.

Fixpoint atoms_of (join : bool) (groups : list (list string))
  : string + list where_atom :=
  match groups with
  | [] => inr []
  | g :: rest =>
      match atom_of join g, atoms_of join rest with
      | inl e, _ => inl e
      | _, inl e => inl e
      | inr a, inr l => inr (a :: l)
      end
  end.

Definition aggregate_functions : list string :=
  ["COUNT"; "SUM"; "TOTAL"; "AVG"; "MIN"; "MAX"; "GROUP_CONCAT"].

Definition has_aggregate (cols : list string) : bool :=
  existsb (fun t => existsb (token_eqb t) aggregate_functions) cols.

Definition is_column (c : column) (cs : list column) : bool :=
  existsb (fun c' => match c, c' with
                     | CDistance, CDistance => true
                     | _, _ => false
                     end) cs.

(** An optional clause that, when present, must read exactly [expect]. *)
Definition fixed_clause (k : keyword) (expect : list string) (rest : list clause)
  : string + bool :=
  match clause_of k rest with
  | None => inr false
  | Some b => if tokens_eqb b expect then inr true else inl unsupported
  end.

Definition resolve_rows (cols table : list string) (rest : list clause)
  : string + rows_plan :=
  if negb (tokens_eqb table ["providers"; "p"]) then
    inl ("no such table: " ++ hd "" table)
  else
  match fixed_clause KJoin (tl (tokens taxonomy_join)) rest with
  | inl e => inl e
  | inr join =>
  match columns_of (split_top "," 0 cols) with
  | inl e => inl e
  | inr cs =>
  match clause_of KHaving rest, clause_of KGroup rest with
  | Some _, None =>
      if has_aggregate cols then inl unsupported
      else inl having_non_aggregate
  | having, _ =>
  match (match clause_of KWhere rest with
         | None => inr []
         | Some w => atoms_of join (split_top "AND" 0 w)
         end) with
  | inl e => inl e
  | inr atoms =>
  match fixed_clause KGroup ["BY"; "p.NPI"] rest with
  | inl e => inl e
  | inr group =>
  match (match having with
         | None => inr false
         | Some h =>
             if tokens_eqb h (tokens "distance < :radius") then
               if is_column CDistance cs then inr true
               else inl (no_such_column "distance")
             else inl unsupported
         end) with
  | inl e => inl e
  | inr hav =>
  match (match fixed_clause KOrder ["BY"; "distance"] rest with
         | inr true =>
             if is_column CDistance cs then inr true
             else inl (no_such_column "distance")
         | other => other
         end) with
  | inl e => inl e
  | inr order =>
  match fixed_clause KLimit [":limit"] rest with
  | inl e => inl e
  | inr limit =>
  match fixed_clause KOffset [":offset"] rest with
  | inl e => inl e
  | inr offset => inr (mkPlan cs join atoms group hav order limit offset)
  end end end end end end end end end.

Definition resolve (s : select) : string + plan :=
  match s with
  | Select cols (FromTable table) rest =>
      match resolve_rows cols table rest with
      | inl e => inl e
      | inr q => inr (PRows q)
      end
  | Select cols (FromSelect (Select cols' (FromTable table) rest')) rest =>
      match resolve_rows cols' table rest' with
      | inl e => inl e
      | inr q =>
          if tokens_eqb cols ["COUNT"; "("; "*"; ")"] && (length rest =? 0)%nat
          then inr (PCount q) else inl unsupported
      end
  | _ => inl unsupported
  end.

(** Compiling a statement: what [sqlite3_prepare] accepts, or its message. *)
Definition prepare (sql : string) : string + plan :=
  let ts := tokens sql in
  match parse (length ts) ts with
  | inl e => inl e
  | inr s => resolve s
  end.

(** *** Running a compiled statement *)

Section Run.
Context {rt : PyRuntime}.

Definition value_of (b : binding) : sqlval :=
  match b with
  | BFloat x => VReal x
  | BStr s => VText s
  | BInt z => VInt z
  end.

Fixpoint binding_of (name : string) (params : bindings) : option binding :=
  match params with
  | [] => None
  | (k, b) :: rest => if String.eqb k name then Some b else binding_of name rest
  end.

Definition bound (name : string) (params : bindings) : sqlval :=
  match binding_of name params with
  | Some b => value_of b
  | None => VNull
  end.

Definition and_then {A B : Type} (o : option A) (k : A -> option B) : option B :=
  match o with
  | Some a => k a
  | None => None
  end.

Notation "'let?' x := o 'in' k" := (and_then o (fun x => k))
  (at level 10, x name, o at level 200, k at level 200).

(** A registered function is called with the Python value of its SQL
    argument: a number for INTEGER and REAL; [None] for NULL and a
    [str] for TEXT, on which the [math] functions raise [TypeError]. *)
Definition udf (f : float -> option float) (v : sqlval) : option float :=
  match v with
  | VReal x => f x
  | VInt z => f (float_of_Q (inject_Z z))
  | VNull | VText _ | VCodes _ => None
  end.

(** The value of [haversine_formula] on a row; [None] when a
    function raises. *)
Definition haversine (ulat ulon lat lon : sqlval) : option float :=
  let? rad_ulat := udf math_radians ulat in
  let? cos_ulat := math_cos rad_ulat in
  let? rad_lat := udf math_radians lat in
  let? cos_lat := math_cos rad_lat in
  let? rad_lon := udf math_radians lon in
  let? rad_ulon := udf math_radians ulon in
  let? cos_dlon := math_cos (fsub rad_lon rad_ulon) in
  let? sin_ulat := math_sin rad_ulat in
  let? sin_lat := math_sin rad_lat in
  let? angle := math_acos (fadd (fmul (fmul cos_ulat cos_lat) cos_dlon)
                                (fmul sin_ulat sin_lat)) in
  Some (fmul (float_of_Q (39588 # 10)) angle).

(** A row of the FROM clause: the provider and [t_join.value]. *)
Definition joined : Type := (provider * sqlval)%type.

(** [providers p], alone or with [LEFT JOIN json_each(p.taxonomy) AS
    t_join ON 1=1]: one row per element of the array, and one row with
    a NULL [t_join.value] for an empty array. *)
Definition from_rows (join : bool) (db : database) : list joined :=
  if join then
    flat_map (fun p => match taxonomy p with
                       | [] => [(p, VNull)]
                       | codes => map (fun c => (p, VText c)) codes
                       end) db
  else map (fun p => (p, VNull)) db.

Definition atom_holds (params : bindings) (r : joined) (a : where_atom) : bool :=
  match a with
  | LatitudeNotNull =>
      match latitude (fst r) with VNull => false | _ => true end
  | LatitudeNotEmpty =>
      match latitude (fst r) with
      | VNull => false
      | VText s => negb (String.eqb s "")
      | _ => true
      end
  | TaxonomyEquals =>
      match snd r, bound "taxonomy" params with
      | VText c, VText t => String.eqb c t
      | _, _ => false
      end
  end.

Definition where_holds (params : bindings) (atoms : list where_atom) (r : joined)
  : bool :=
  forallb (atom_holds params r) atoms.

(** [GROUP BY p.NPI]: one row per identifier (SQLite takes the other
    columns from one row of the group; here the first). *)
Fixpoint group_by_npi (seen : list string) (rows : list joined) : list joined :=
  match rows with
  | [] => []
  | r :: rest =>
      if existsb (String.eqb (NPI (fst r))) seen then group_by_npi seen rest
      else r :: group_by_npi (NPI (fst r) :: seen) rest
  end.

(** The [distance] column of every remaining row. *)
Fixpoint distances (params : bindings) (rows : list joined)
  : option (list (joined * float)) :=
  match rows with
  | [] => Some []
  | r :: rest =>
      let? d := haversine (bound "user_lat" params) (bound "user_lon" params)
                          (latitude (fst r)) (longitude (fst r)) in
      let? ds := distances params rest in
      Some ((r, d) :: ds)
  end.

(** [distance < :radius], a REAL against the bound value: numbers
    sort before text, and a comparison with NULL is not true. *)
Definition within (params : bindings) (d : float) : bool :=
  match bound "radius" params with
  | VReal r => flt d r
  | VInt z => flt d (float_of_Q (inject_Z z))
  | VText _ | VCodes _ => true
  | VNull => false
  end.

Fixpoint insert_by_distance (r : joined * float) (l : list (joined * float))
  : list (joined * float) :=
  match l with
  | [] => [r]
  | r' :: l' =>
      if flt (snd r') (snd r) then r' :: insert_by_distance r l'
      else r :: l
  end.

Definition order_by_distance (l : list (joined * float)) : list (joined * float) :=
  fold_right insert_by_distance [] l.

Definition column_value (r : joined * float) (c : column) : string * sqlval :=
  let p := fst (fst r) in
  match c with
  | CNPI => ("NPI", VText (NPI p))
  | CName => ("Name", VText (Name p))
  | CAddress => ("Address", VText (Address p))
  | CCity => ("City", VText (City p))
  | CState => ("State", VText (State p))
  | CPostalCode => ("PostalCode", VText (PostalCode p))
  | CLatitude => ("latitude", latitude p)
  | CLongitude => ("longitude", longitude p)
  | CTaxonomy => ("taxonomy", VCodes (taxonomy p))
  | CDistance => ("distance", VReal (snd r))
  end.

Definition udf_raised : string := "user-defined function raised exception".

Definition run_rows (q : rows_plan) (params : bindings) (db : database)
  : exn + list (joined * float) :=
  let candidates := filter (where_holds params (q_where q)) (from_rows (q_join q) db) in
  let groups := if q_group q then group_by_npi [] candidates else candidates in
  match distances params groups with
  | None => inl (SqliteError udf_raised)
  | Some rows =>
      let rows := if q_having q then filter (fun r => within params (snd r)) rows
                  else rows in
      let rows := if q_order q then order_by_distance rows else rows in
      let rows := if q_offset q then
                    match bound "offset" params with
                    | VInt z => skipn (Z.to_nat z) rows
                    | _ => rows
                    end
                  else rows in
      let rows := if q_limit q then
                    match bound "limit" params with
                    | VInt z => if (z <? 0)%Z then rows else firstn (Z.to_nat z) rows
                    | _ => rows
                    end
                  else rows in
      inr rows
  end.

Definition run (pl : plan) (params : bindings) (db : database)
  : exn + list row_dict :=
  match pl with
  | PRows q =>
      match run_rows q params db with
      | inl e => inl e
      | inr rows => inr (map (fun r => map (column_value r) (q_cols q)) rows)
      end
  | PCount q =>
      match run_rows q params db with
      | inl e => inl e
      | inr rows => inr [[("COUNT(*)", VInt (Z.of_nat (length rows)))]]
      end
  end.

(** The names after a colon in the statement. *)
Definition named_parameters (ts : list string) : list string :=
  flat_map (fun t => match t with
                     | String c name => if (nat_of_ascii c =? 58)%nat then [name] else []
                     | EmptyString => []
                     end) ts.

Definition unbound (params : bindings) (name : string) : bool :=
  match binding_of name params with Some _ => false | None => true end.

(** [conn.execute(sql, params)] and the fetching of all rows. *)
Definition execute (sql : string) (params : bindings) (db : database)
  : exn + list row_dict :=
  match prepare sql with
  | inl msg => inl (SqliteError msg)
  | inr pl =>
      match find (unbound params) (named_parameters (tokens sql)) with
      | Some name =>
          inl (SqliteError ("You did not supply a value for binding parameter :"
                            ++ name ++ "."))
      | None => run pl params db
      end
  end.

End Run.

End Sqlite.

(** ** A runtime to run the model on examples

    Doubles are rationals here, the two conversions read plain decimal
    numerals, and the [math] functions are short series.  It is used to
    evaluate the handler on concrete requests only; every theorem below
    holds for all runtimes. *)
Module Rational.

Local Open Scope Q_scope.

Definition digit_of (c : ascii) : option Z :=
  let n := nat_of_ascii c in
  if ((48 <=? n) && (n <=? 57))%nat then Some (Z.of_nat (n - 48)) else None.

(** The value and the number of digits of a string of digits. *)
Fixpoint digits (s : string) (acc : Z) (count : nat) : option (Z * nat) :=
  match s with
  | EmptyString => Some (acc, count)
  | String c s' =>
      match digit_of c with
      | Some d => digits s' (10 * acc + d)%Z (S count)
      | None => None
      end
  end.

Definition unsigned_int (s : string) : option Z :=
  match digits s 0%Z 0%nat with
  | Some (z, S _) => Some z
  | _ => None
  end.

Definition signed {A : Type} (neg : A -> A) (unsigned : string -> option A)
    (s : string) : option A :=
  match s with
  | String c s' =>
      if (nat_of_ascii c =? 45)%nat then option_map neg (unsigned s')
      else if (nat_of_ascii c =? 43)%nat then unsigned s'
      else unsigned s
  | EmptyString => None
  end.

Definition int_of_decimal : string -> option Z := signed Z.opp unsigned_int.

Fixpoint split_point (s : string) : string * option string :=
  match s with
  | EmptyString => (EmptyString, None)
  | String c s' =>
      if (nat_of_ascii c =? 46)%nat then (EmptyString, Some s')
      else let '(a, b) := split_point s' in (String c a, b)
  end.

Definition unsigned_float (s : string) : option Q :=
  match split_point s with
  | (whole, None) => option_map inject_Z (unsigned_int whole)
  | (whole, Some frac) =>
      match digits whole 0%Z 0%nat, digits frac 0%Z 0%nat with
      | Some (w, nw), Some (f, nf) =>
          if ((nw + nf) =? 0)%nat then None
          else Some (Qred (inject_Z w + (f # Pos.of_nat (10 ^ nf)%nat)))
      | _, _ => None
      end
  end.

Definition float_of_decimal : string -> option Q := signed Qopp unsigned_float.

Definition pi : Q := 355 # 113.

Definition radians (x : Q) : option Q := Some (Qred (x * pi / 180)).

Definition cos (x : Q) : option Q :=
  let x2 := Qred (x * x) in
  Some (Qred (1 - x2 / 2 + x2 * x2 / 24 - x2 * x2 * x2 / 720)).

Definition sin (x : Q) : option Q :=
  let x2 := Qred (x * x) in
  Some (Qred (x * (1 - x2 / 6 + x2 * x2 / 120 - x2 * x2 * x2 / 5040))).

(** [math.acos] raises [ValueError] outside [[-1, 1]]. *)
Definition acos (x : Q) : option Q :=
  if Qle_bool (-1) x && Qle_bool x 1
  then Some (Qred (pi / 2 - x * (1 + x * x / 6)))
  else None.

Definition Qlt_bool (x y : Q) : bool := negb (Qle_bool y x).

Definition runtime : PyRuntime := {|
  float := Q;
  float_of_Q := fun q => q;
  float_of_str := float_of_decimal;
  int_of_str := int_of_decimal;
  math_radians := radians;
  math_cos := cos;
  math_sin := sin;
  math_acos := acos;
  fmul := fun x y => Qred (x * y);
  fadd := fun x y => Qred (x + y);
  fsub := fun x y => Qred (x - y);
  flt := Qlt_bool
|}.

End Rational.

(** ** Vocabulary of the statements *)

Section Vocabulary.
Context {rt : PyRuntime}.

(** A parameter that the query string does not carry. *)
Definition missing (args : query_args) (key : string) : Prop :=
  args_get args key PyNone = PyNone.

(** A parameter that is supplied and that [float] rejects. *)
Definition not_a_number (args : query_args) (key : string) : Prop :=
  exists s, args_get args key PyNone = PyStr s /\ float_of_str s = None.

(** A parameter that is supplied and that [int] rejects. *)
Definition not_an_integer (args : query_args) (key : string) : Prop :=
  exists s, args_get args key PyNone = PyStr s /\ int_of_str s = None.

(** The requests the first [try] block rejects. *)
Definition malformed (args : query_args) : Prop :=
  missing args "lat" \/ not_a_number args "lat" \/
  missing args "lon" \/ not_a_number args "lon" \/
  not_a_number args "radius" \/ not_an_integer args "offset".

Definition bad_request : response * list event :=
  ((ErrorBody "Invalid query parameters. 'lat', 'lon', and 'radius' must be numbers." None,
    400%Z), []).

(** The execution block ends on a database error with message [msg]:
    raised by the count statement, or by the results statement after
    the count was read. *)
Definition dataset_access_fails
    (execute : string -> bindings -> database -> exn + list row_dict)
    (p : search_params) (db : database) (msg : string) : Prop :=
  let t := taxonomy_filter p in
  execute (count_query t) (query_params p) db = inl (SqliteError msg) \/
  exists rows total,
    execute (count_query t) (query_params p) db = inr rows /\
    first_column rows = inr total /\
    execute (results_query t) (query_params p) db = inl (SqliteError msg).

(** Every statement of a log is the count or the results text for
    [p]'s filter, and carries [p]'s values as its bound parameters. *)
Definition bound_statements (p : search_params) (tr : list event) : Prop :=
  Forall (fun ev =>
            match ev with
            | Execute sql params =>
                (sql = count_query (taxonomy_filter p) \/
                 sql = results_query (taxonomy_filter p)) /\
                params = [ ("user_lat", BFloat (user_lat p));
                           ("user_lon", BFloat (user_lon p));
                           ("radius", BFloat (radius p));
                           ("taxonomy", BStr (taxonomy_filter p));
                           ("limit", BInt 20);
                           ("offset", BInt (offset p)) ]
            | _ => True
            end) tr.

Definition database_error (msg : string) : response :=
  (ErrorBody "A database error occurred." (Some msg), 500%Z).

(** What SQLite compiles the count statement to when no filter is given. *)
Definition count_all_plan : Sqlite.rows_plan :=
  Sqlite.mkPlan [Sqlite.CNPI; Sqlite.CDistance] false
                [Sqlite.LatitudeNotNull; Sqlite.LatitudeNotEmpty]
                true true false false false.

Definition count_statement (p : search_params) : event :=
  Execute (count_query (taxonomy_filter p)) (query_params p).

(** The keys of the query string the handler reads. *)
Definition read_keys : list string := ["lat"; "lon"; "radius"; "taxonomy"; "offset"].

Definition is_read (key : string) : bool := existsb (String.eqb key) read_keys.

(** INTEGER and REAL values, the ones a [math] function accepts. *)
Definition numeric (v : sqlval) : Prop :=
  match v with
  | VInt _ | VReal _ => True
  | VNull | VText _ | VCodes _ => False
  end.

(** A stored row whose latitude is NULL or the empty text. *)
Definition no_latitude (r : provider) : Prop :=
  latitude r = VNull \/ latitude r = VText "".

(** The single row of a [SELECT COUNT( * )]. *)
Definition count_row (n : Z) : list row_dict := [[("COUNT(*)", VInt n)]].

(** How many different identifiers the table holds. *)
Definition distinct_npis (db : database) : nat :=
  List.length (nodup string_dec (map NPI db)).



Definition results_statement (p : search_params) : event :=
  Execute (results_query (taxonomy_filter p)) (query_params p).

End Vocabulary.

(** ** Sample requests and rows, on the rational runtime *)
Module Sample.

Definition rt : PyRuntime := Rational.runtime.

Definition real (q : Q) : sqlval (rt := rt) := VReal (rt := rt) q.

Definition params (lat lon rad : Q) (t : string) (off : Z) : search_params (rt := rt) :=
  mkParams (rt := rt) lat lon rad t off.

(** Stored with the same code twice. *)
Definition counselor : provider (rt := rt) :=
  mkProvider (rt := rt) "1003000126" "A. Counselor" "1 Main St" "Trenton" "NJ" "08608"
             (real (401 # 10)) (real (-751 # 10)) ["101Y00000X"; "101Y00000X"].

Definition physician : provider (rt := rt) :=
  mkProvider (rt := rt) "1003000134" "B. Physician" "2 Broad St" "Camden" "NJ" "08102"
             (real (40 # 1)) (real (-75 # 1)) ["207Q00000X"].

(** A latitude and no longitude. *)
Definition half_located : provider (rt := rt) :=
  mkProvider (rt := rt) "1003000142" "C. Clinic" "3 High St" "Dover" "DE" "19901"
             (real (401 # 10)) VNull [].

Definition providers : database (rt := rt) := [counselor; physician].

Definition all_nearby : query_args := [("lat", "40"); ("lon", "-75"); ("taxonomy", "")].

Definition counselors_nearby : query_args :=
  [("lat", "40"); ("lon", "-75"); ("radius", "25"); ("taxonomy", "101Y00000X"); ("offset", "0")].

Definition physicians_next_page : query_args :=
  [("lat", "34.5"); ("lon", "-118"); ("radius", "10"); ("taxonomy", "207Q00000X"); ("offset", "20")].

Definition no_radius : query_args := [("lat", "40"); ("lon", "-75")].

Definition bad_latitude : query_args := [("lat", "abc"); ("lon", "-75")].

(** An engine that answers every statement with the same rows. *)
Definition canned (rows : list (row_dict (rt := rt)))
  : string -> bindings (rt := rt) -> database (rt := rt)
    -> exn + list (row_dict (rt := rt)) :=
  fun _ _ _ => inr rows.

Definition run (args : query_args) (db : database (rt := rt))
  : response (rt := rt) * list (event (rt := rt)) :=
  search_providers (rt := rt) (Sqlite.execute (rt := rt)) args db.

End Sample.

Ltac statements :=
  simpl; repeat first [apply Forall_nil | apply Forall_cons]; simpl; auto.

(** ** The handler, for any engine *)

Section HandlerFacts.
Context {rt : PyRuntime}.
Variable execute : string -> bindings -> database -> exn + list row_dict.

Lemma args_get_default (args : query_args) (key : string) (d : pyval) :
  args_get args key d =
  match args_get args key PyNone with
  | PyNone => d
  | v => v
  end.
Proof.
  induction args as [|[k v] rest IH]; simpl.
  - reflexivity.
  - destruct (String.eqb k key); [reflexivity | exact IH].
Qed.

Lemma py_float_missing : forall args key,
    missing args key -> exists e, py_float (args_get args key PyNone) = inl e.
Proof.
  intros args key H. unfold missing in H. rewrite H. simpl. eauto.
Qed.

Lemma py_float_not_a_number : forall args key d,
    not_a_number args key -> exists e, py_float (args_get args key d) = inl e.
Proof.
  intros args key d (s & Hs & Hf).
  rewrite args_get_default, Hs. simpl. rewrite Hf. eauto.
Qed.

Lemma py_int_not_an_integer : forall args key d,
    not_an_integer args key -> exists e, py_int (args_get args key d) = inl e.
Proof.
  intros args key d (s & Hs & Hf).
  rewrite args_get_default, Hs. simpl. rewrite Hf. eauto.
Qed.

Lemma malformed_not_parsed : forall args,
    malformed args -> exists e, parse_params args = inl e.
Proof.
  intros args H. unfold parse_params.
  destruct H as [H | [H | [H | [H | [H | H]]]]].
  - apply py_float_missing in H. destruct H as [e ->]. eauto.
  - apply (py_float_not_a_number _ _ PyNone) in H. destruct H as [e ->]. eauto.
  - destruct (py_float (args_get args "lat" PyNone)); eauto.
    apply py_float_missing in H. destruct H as [e ->]. eauto.
  - destruct (py_float (args_get args "lat" PyNone)); eauto.
    apply (py_float_not_a_number _ _ PyNone) in H. destruct H as [e ->]. eauto.
  - destruct (py_float (args_get args "lat" PyNone)); eauto.
    destruct (py_float (args_get args "lon" PyNone)); eauto.
    apply (py_float_not_a_number _ _ (PyInt 25)) in H. destruct H as [e ->]. eauto.
  - destruct (py_float (args_get args "lat" PyNone)); eauto.
    destruct (py_float (args_get args "lon" PyNone)); eauto.
    destruct (py_float (args_get args "radius" (PyInt 25))); eauto.
    apply (py_int_not_an_integer _ _ (PyInt 0)) in H. destruct H as [e ->]. eauto.
Qed.

(** The execution block, outcome by outcome. *)
Lemma database_section_cases (p : search_params) (db : database) :
  let t := taxonomy_filter p in
  let count := Execute (count_query t) (query_params p) in
  let results := Execute (results_query t) (query_params p) in
  database_section execute p db [] =
  match execute (count_query t) (query_params p) db with
  | inl e => (inr (except_response e), [Connect; count; Close])
  | inr rows =>
      match first_column rows with
      | inl e => (inr (except_response e), [Connect; count; Close])
      | inr total =>
          match execute (results_query t) (query_params p) db with
          | inl e => (inr (except_response e), [Connect; count; results; Close])
          | inr page =>
              (inr (Payload page total (offset p) RESULTS_PER_PAGE, 200%Z),
               [Connect; count; results; Close])
          end
      end
  end.
Proof.
  cbv zeta.
  unfold database_section, try_except_finally, bind, get_db_conn, conn_close,
    conn_execute, fetchone_0, emit, ret, raise. simpl.
  destruct (execute (count_query (taxonomy_filter p)) (query_params p) db)
    as [e | rows]; [reflexivity |].
  destruct (first_column rows) as [e | total]; [reflexivity |]. simpl.
  destruct (execute (results_query (taxonomy_filter p)) (query_params p) db);
    reflexivity.
Qed.

Lemma connection_released (args : query_args) (db : database) :
  connection_open (snd (search_providers execute args db)) = false.
Proof.
  unfold search_providers.
  destruct (parse_params args) as [e | p]; [reflexivity |].
  rewrite database_section_cases. cbv zeta.
  destruct (execute (count_query (taxonomy_filter p)) (query_params p) db)
    as [e | rows]; [reflexivity |].
  destruct (first_column rows) as [e | total]; [reflexivity |].
  destruct (execute (results_query (taxonomy_filter p)) (query_params p) db);
    reflexivity.
Qed.

End HandlerFacts.

(** X8: for any engine, when both statements succeed the handler
    assembles the success object: the rows of the results statement, the
    first column of the count, the caller's offset and the page size 20,
    with status 200, after one connection and the two statements. *)
Lemma payload_assembled :
  forall (rt : PyRuntime)
         (execute : string -> bindings -> database -> exn + list row_dict)
         (args : query_args) (p : search_params) (db : database)
         (rows page : list row_dict) (total : sqlval),
    parse_params args = inr p ->
    execute (count_query (taxonomy_filter p)) (query_params p) db = inr rows ->
    first_column rows = inr total ->
    execute (results_query (taxonomy_filter p)) (query_params p) db = inr page ->
    search_providers execute args db
    = ((Payload page total (offset p) 20, 200%Z),
       [Connect; count_statement p; results_statement p; Close]).
Proof.
  intros rt execute args p db rows page total Hp Hc Hf Hr.
  unfold search_providers. rewrite Hp, database_section_cases. cbv zeta.
  rewrite Hc, Hf, Hr. reflexivity.
Qed.

(** ** Validation, error reporting and the SQL text (any engine) *)

(** C7, as amended: a request whose [lat] or [lon] is missing or not a
    number, whose [radius] is supplied and not a number, or whose [offset]
    is supplied and not an integer, gets the HTTP 400 error body, and the
    dataset is not touched: no connection, no statement. *)
Theorem malformed_request_rejected_before_dataset :
  forall (rt : PyRuntime)
         (execute : string -> bindings -> database -> exn + list row_dict)
         (args : query_args) (db : database),
    malformed args ->
    search_providers execute args db = bad_request.
Proof.
  intros rt execute args db H.
  destruct (malformed_not_parsed args H) as [e He].
  unfold search_providers. rewrite He. reflexivity.
Qed.

Lemma malformed_request_rejected_witness :
  malformed (rt := Sample.rt) Sample.bad_latitude /\
  Sample.run Sample.bad_latitude Sample.providers = bad_request.
Proof.
  assert (H : malformed (rt := Sample.rt) Sample.bad_latitude).
  { right; left. exists "abc". split; reflexivity. }
  split; [exact H |].
  exact (malformed_request_rejected_before_dataset
           Sample.rt Sqlite.execute Sample.bad_latitude Sample.providers H).
Defined.

(** C7, as stated, fails where [radius] is missing: the default 25 is
    used, the request is not answered with 400, and the dataset is
    accessed. *)
Lemma missing_radius_not_rejected :
  missing Sample.no_radius "radius" /\
  status (fst (Sample.run Sample.no_radius Sample.providers)) <> 400%Z /\
  hd_error (snd (Sample.run Sample.no_radius Sample.providers)) = Some Connect.
Proof.
  split; [reflexivity |]. split.
  - vm_compute. discriminate.
  - reflexivity.
Qed.

(** C8: when the count or the results statement raises a database error,
    the response is HTTP 500 with the generic message and the error text
    as [details], in place of the result payload; and on every run of the
    handler, failed or not, no connection is left open. *)
Theorem database_error_reported_and_connection_released :
  forall (rt : PyRuntime)
         (execute : string -> bindings -> database -> exn + list row_dict)
         (args : query_args) (p : search_params) (db : database) (msg : string),
    parse_params args = inr p ->
    dataset_access_fails execute p db msg ->
    fst (search_providers execute args db) = database_error msg /\
    body_results (fst (search_providers execute args db)) = None /\
    hd_error (snd (search_providers execute args db)) = Some Connect /\
    last (snd (search_providers execute args db)) Connect = Close /\
    (forall args' db', connection_open (snd (search_providers execute args' db')) = false).
Proof.
  intros rt execute args p db msg Hp Hfail.
  assert (Hrun : search_providers execute args db = (database_error msg,
            snd (search_providers execute args db)) /\
          hd_error (snd (search_providers execute args db)) = Some Connect /\
          last (snd (search_providers execute args db)) Connect = Close).
  { unfold search_providers. rewrite Hp, database_section_cases. cbv zeta.
    destruct Hfail as [Hc | (rows & total & Hc & Hf & Hr)].
    - rewrite Hc. simpl. repeat split; reflexivity.
    - rewrite Hc, Hf, Hr. simpl. repeat split; reflexivity. }
  destruct Hrun as (Hrun & Hhd & Hlast).
  repeat split.
  - rewrite Hrun. reflexivity.
  - rewrite Hrun. reflexivity.
  - exact Hhd.
  - exact Hlast.
  - intros args' db'. apply connection_released.
Qed.

(** C10: the two SQL texts are fixed by the truth value of [taxonomy]
    alone, and on every run each executed statement is one of these two
    texts, with the request's values passed as its named parameters. *)
Theorem sql_text_fixed_by_taxonomy_emptiness :
  forall (rt : PyRuntime)
         (execute : string -> bindings -> database -> exn + list row_dict)
         (args1 args2 : query_args) (p1 p2 : search_params) (db1 db2 : database),
    parse_params args1 = inr p1 ->
    parse_params args2 = inr p2 ->
    truthy (taxonomy_filter p1) = truthy (taxonomy_filter p2) ->
    count_query (taxonomy_filter p1) = count_query (taxonomy_filter p2) /\
    results_query (taxonomy_filter p1) = results_query (taxonomy_filter p2) /\
    bound_statements p1 (snd (search_providers execute args1 db1)) /\
    bound_statements p2 (snd (search_providers execute args2 db2)).
Proof.
  intros rt execute args1 args2 p1 p2 db1 db2 H1 H2 Ht.
  assert (Hb : forall args p db, parse_params args = inr p ->
                 bound_statements p (snd (search_providers execute args db))).
  { intros args p db Hp. unfold search_providers, bound_statements.
    rewrite Hp, database_section_cases. cbv zeta.
    destruct (execute (count_query (taxonomy_filter p)) (query_params p) db)
      as [e | rows]; [statements |].
    destruct (first_column rows) as [e | total]; [statements |].
    destruct (execute (results_query (taxonomy_filter p)) (query_params p) db);
      statements. }
  repeat split.
  - unfold count_query, where_clauses. rewrite Ht. reflexivity.
  - unfold results_query, base_query, where_clauses. rewrite Ht. reflexivity.
  - apply Hb, H1.
  - apply Hb, H2.
Qed.

Lemma database_error_reported_witness :
  parse_params (rt := Sample.rt) Sample.no_radius = inr (Sample.params 40 (-75) 25 "" 0) /\
  dataset_access_fails (rt := Sample.rt) Sqlite.execute (Sample.params 40 (-75) 25 "" 0) []
    (Sqlite.syntax_error "WHERE") /\
  fst (Sample.run Sample.no_radius []) = database_error (Sqlite.syntax_error "WHERE") /\
  snd (Sample.run Sample.no_radius []) =
    [Connect; count_statement (Sample.params 40 (-75) 25 "" 0);
     results_statement (Sample.params 40 (-75) 25 "" 0); Close].
Proof.
  assert (Hp : parse_params (rt := Sample.rt) Sample.no_radius
               = inr (Sample.params 40 (-75) 25 "" 0)) by reflexivity.
  assert (Hf : dataset_access_fails (rt := Sample.rt) Sqlite.execute
                 (Sample.params 40 (-75) 25 "" 0) [] (Sqlite.syntax_error "WHERE")).
  { right. exists [[("COUNT(*)", VInt 0)]], (VInt 0).
    repeat split; reflexivity. }
  split; [exact Hp |]. split; [exact Hf |].
  split.
  - exact (proj1 (database_error_reported_and_connection_released
                    Sample.rt Sqlite.execute Sample.no_radius _ [] _ Hp Hf)).
  - reflexivity.
Defined.

Lemma sql_text_fixed_witness :
  parse_params (rt := Sample.rt) Sample.counselors_nearby
    = inr (Sample.params 40 (-75) 25 "101Y00000X" 0) /\
  parse_params (rt := Sample.rt) Sample.physicians_next_page
    = inr (Sample.params (69 # 2) (-118) 10 "207Q00000X" 20) /\
  count_query "101Y00000X" = count_query "207Q00000X" /\
  results_query "101Y00000X" = results_query "207Q00000X".
Proof.
  assert (H1 : parse_params (rt := Sample.rt) Sample.counselors_nearby
               = inr (Sample.params 40 (-75) 25 "101Y00000X" 0)) by reflexivity.
  assert (H2 : parse_params (rt := Sample.rt) Sample.physicians_next_page
               = inr (Sample.params (69 # 2) (-118) 10 "207Q00000X" 20)) by reflexivity.
  split; [exact H1 |]. split; [exact H2 |].
  pose proof (sql_text_fixed_by_taxonomy_emptiness
                Sample.rt Sqlite.execute _ _ _ _ Sample.providers [] H1 H2 eq_refl)
    as (Hc & Hr & _).
  split; [exact Hc | exact Hr].
Defined.

(** ** What SQLite makes of the four statements *)

Section SqliteFacts.
Context {rt : PyRuntime}.

Lemma prepare_count_all :
  Sqlite.prepare (count_query "") = inr (Sqlite.PCount count_all_plan).
Proof. vm_compute. reflexivity. Qed.

Lemma prepare_results_all :
  Sqlite.prepare (results_query "") = inl (Sqlite.syntax_error "WHERE").
Proof. vm_compute. reflexivity. Qed.

Lemma prepare_count_filtered (t : string) :
  truthy t = true ->
  Sqlite.prepare (count_query t) = inl Sqlite.having_non_aggregate.
Proof.
  intros H. unfold count_query, where_clauses. rewrite H.
  vm_compute. reflexivity.
Qed.

Lemma prepare_results_filtered (t : string) :
  truthy t = true ->
  Sqlite.prepare (results_query t) = inl Sqlite.having_non_aggregate.
Proof.
  intros H. unfold results_query, base_query, where_clauses. rewrite H.
  vm_compute. reflexivity.
Qed.

Lemma truthy_cases (t : string) : t = "" \/ truthy t = true.
Proof. destruct t; [left | right]; reflexivity. Qed.

Lemma execute_rejected (sql msg : string) (params : bindings) (db : database) :
  Sqlite.prepare sql = inl msg ->
  Sqlite.execute sql params db = inl (SqliteError msg).
Proof. intros H. unfold Sqlite.execute. rewrite H. reflexivity. Qed.

Lemma count_all_parameters :
  Sqlite.named_parameters (Sqlite.tokens (count_query ""))
  = ["user_lat"; "user_lon"; "user_lat"; "radius"].
Proof. vm_compute. reflexivity. Qed.

Lemma execute_count_all (p : search_params) (db : database) :
  Sqlite.execute (count_query "") (query_params p) db
  = Sqlite.run (Sqlite.PCount count_all_plan) (query_params p) db.
Proof.
  unfold Sqlite.execute.
  rewrite prepare_count_all, count_all_parameters. reflexivity.
Qed.

Lemma run_rows_error (q : Sqlite.rows_plan) (params : bindings) (db : database)
      (e : exn) :
  Sqlite.run_rows q params db = inl e -> e = SqliteError Sqlite.udf_raised.
Proof.
  unfold Sqlite.run_rows.
  destruct (Sqlite.distances params _); intros H; inversion H; reflexivity.
Qed.

(** The count statement without filter runs: it yields one row with
    the count, unless a registered function raises on some row. *)
Lemma count_all_outcome (p : search_params) (db : database) :
  (exists n, Sqlite.execute (count_query "") (query_params p) db
             = inr [[("COUNT(*)", VInt n)]]) \/
  Sqlite.execute (count_query "") (query_params p) db
  = inl (SqliteError Sqlite.udf_raised).
Proof.
  rewrite execute_count_all. unfold Sqlite.run.
  destruct (Sqlite.run_rows count_all_plan (query_params p) db) as [e | rows] eqn:E.
  - right. apply run_rows_error in E. subst e. reflexivity.
  - left. eexists. reflexivity.
Qed.

Lemma filtered_request_outcome (args : query_args) (p : search_params) (db : database) :
  parse_params args = inr p ->
  truthy (taxonomy_filter p) = true ->
  search_providers Sqlite.execute args db
  = (database_error Sqlite.having_non_aggregate, [Connect; count_statement p; Close]).
Proof.
  intros Hp Ht. unfold search_providers. rewrite Hp, database_section_cases.
  cbv zeta.
  rewrite (execute_rejected _ _ _ _ (prepare_count_filtered _ Ht)).
  reflexivity.
Qed.

Lemma unfiltered_request_outcome (args : query_args) (p : search_params) (db : database) :
  parse_params args = inr p ->
  taxonomy_filter p = "" ->
  search_providers Sqlite.execute args db
  = (database_error (Sqlite.syntax_error "WHERE"),
     [Connect; count_statement p; results_statement p; Close]) \/
  search_providers Sqlite.execute args db
  = (database_error Sqlite.udf_raised, [Connect; count_statement p; Close]).
Proof.
  intros Hp Ht. unfold search_providers, count_statement, results_statement.
  rewrite Hp, database_section_cases. cbv zeta. rewrite Ht.
  destruct (count_all_outcome p db) as [[n Hn] | He].
  - left. rewrite Hn. simpl first_column. cbv iota.
    rewrite (execute_rejected _ _ _ _ prepare_results_all). reflexivity.
  - right. rewrite He. reflexivity.
Qed.

(** Every request that passes validation is answered with the database
    error response. *)
Lemma valid_request_outcome (args : query_args) (p : search_params) (db : database) :
  parse_params args = inr p ->
  exists msg tr, search_providers Sqlite.execute args db = (database_error msg, tr).
Proof.
  intros Hp. destruct (truthy_cases (taxonomy_filter p)) as [Ht | Ht].
  - destruct (unfiltered_request_outcome args p db Hp Ht) as [H | H];
      rewrite H; eauto.
  - rewrite (filtered_request_outcome args p db Hp Ht). eauto.
Qed.

End SqliteFacts.

(** ** The clauses of a statement that runs *)

Section RunFacts.
Context {rt : PyRuntime}.

Lemma all_firstn {A : Type} (P : A -> Prop) (n : nat) (l : list A) :
  Forall P l -> Forall P (firstn n l).
Proof.
  revert l. induction n as [|n IH]; intros l H; simpl.
  - constructor.
  - destruct H; constructor; auto.
Qed.

Lemma all_skipn {A : Type} (P : A -> Prop) (n : nat) (l : list A) :
  Forall P l -> Forall P (skipn n l).
Proof.
  revert l. induction n as [|n IH]; intros l H; simpl.
  - exact H.
  - destruct H; [constructor | auto].
Qed.

Lemma all_filter {A : Type} (f : A -> bool) (l : list A) :
  Forall (fun x => f x = true) (filter f l).
Proof.
  induction l as [|x l IH]; simpl.
  - constructor.
  - destruct (f x) eqn:E; [constructor |]; assumption.
Qed.

Lemma all_insert_by_distance (P : Sqlite.joined * float -> Prop)
      (r : Sqlite.joined * float) (l : list (Sqlite.joined * float)) :
  P r -> Forall P l -> Forall P (Sqlite.insert_by_distance r l).
Proof.
  intros Hr Hl. induction Hl as [|x l Hx Hl IH]; simpl.
  - constructor; [assumption | constructor].
  - destruct (flt (snd x) (snd r)); repeat (constructor; try assumption).
Qed.

Lemma all_order_by_distance (P : Sqlite.joined * float -> Prop)
      (l : list (Sqlite.joined * float)) :
  Forall P l -> Forall P (Sqlite.order_by_distance l).
Proof.
  intros H. induction H as [|x l Hx Hl IH]; simpl.
  - constructor.
  - apply all_insert_by_distance; assumption.
Qed.

(** [HAVING distance < :radius]: a statement that runs with this clause
    yields only rows whose distance compares below the bound radius. *)
Lemma having_keeps_rows_within_radius
      (q : Sqlite.rows_plan) (params : bindings) (db : database)
      (rows : list (Sqlite.joined * float)) :
  Sqlite.run_rows q params db = inr rows ->
  Sqlite.q_having q = true ->
  Forall (fun r => Sqlite.within params (snd r) = true) rows.
Proof.
  unfold Sqlite.run_rows. intros H Hq. rewrite Hq in H.
  destruct (Sqlite.distances params _) as [ds |]; [| discriminate].
  inversion H; subst rows; clear H.
  assert (Hf : Forall (fun r => Sqlite.within params (snd r) = true)
                 (filter (fun r => Sqlite.within params (snd r)) ds))
    by apply all_filter.
  assert (Ho : Forall (fun r => Sqlite.within params (snd r) = true)
                 (if Sqlite.q_order q
                  then Sqlite.order_by_distance
                         (filter (fun r => Sqlite.within params (snd r)) ds)
                  else filter (fun r => Sqlite.within params (snd r)) ds)).
  { destruct (Sqlite.q_order q); [apply all_order_by_distance |]; exact Hf. }
  destruct (Sqlite.q_offset q), (Sqlite.q_limit q);
    repeat match goal with
           | |- context [match ?v with _ => _ end] => destruct v
           end;
    auto using all_firstn, all_skipn.
Qed.

(** [LIMIT :limit] with the page size bound: at most 20 rows. *)
Lemma limit_bounds_rows
      (q : Sqlite.rows_plan) (params : bindings) (db : database)
      (rows : list (Sqlite.joined * float)) :
  Sqlite.run_rows q params db = inr rows ->
  Sqlite.q_limit q = true ->
  Sqlite.bound "limit" params = VInt RESULTS_PER_PAGE ->
  (List.length rows <= 20)%nat.
Proof.
  unfold Sqlite.run_rows. intros H Hq Hb. rewrite Hq, Hb in H.
  destruct (Sqlite.distances params _) as [ds |]; [| discriminate].
  inversion H; subst rows; clear H. simpl.
  apply (firstn_le_length 20).
Qed.

(** The count statement without filter counts the stored rows that have
    a latitude, one per identifier, whose distance is below the radius. *)
Lemma count_all_counts_rows_within_radius
      (p : search_params) (db : database) (n : Z) :
  Sqlite.execute (count_query "") (query_params p) db = inr [[("COUNT(*)", VInt n)]] ->
  exists rows,
    Sqlite.run_rows count_all_plan (query_params p) db = inr rows /\
    n = Z.of_nat (List.length rows) /\
    Forall (fun r => flt (snd r) (radius p) = true) rows.
Proof.
  rewrite execute_count_all. unfold Sqlite.run.
  destruct (Sqlite.run_rows count_all_plan (query_params p) db) as [e | rows] eqn:E;
    [discriminate |].
  intros H. inversion H; subst n. exists rows. repeat split.
  exact (having_keeps_rows_within_radius _ _ _ _ E eq_refl).
Qed.

End RunFacts.

(** ** The endpoint on SQLite

    Of the four statements the handler can build, SQLite compiles one: the
    count statement without filter.  The results statement without filter
    has its [GROUP BY] before [WHERE]; the two statements with a filter
    have [HAVING] and neither [GROUP BY] nor an aggregate.  A request that
    passes validation therefore ends in the [except sqlite3.Error] branch. *)

(** C1: with an empty [taxonomy], the results statement reads
    [... FROM providers p GROUP BY p.NPI ... WHERE ...]; SQLite rejects
    it with a syntax error at [WHERE], and the request is answered with
    HTTP 500 and no result list, whatever the stored rows are. *)
Theorem unfiltered_results_statement_rejected :
  forall (rt : PyRuntime) (args : query_args) (p : search_params) (db : database),
    parse_params args = inr p ->
    taxonomy_filter p = "" ->
    Sqlite.execute (results_query (taxonomy_filter p)) (query_params p) db
      = inl (SqliteError (Sqlite.syntax_error "WHERE")) /\
    status (fst (search_providers Sqlite.execute args db)) = 500%Z /\
    body_results (fst (search_providers Sqlite.execute args db)) = None.
Proof.
  intros rt args p db Hp Ht. split.
  - rewrite Ht. apply execute_rejected, prepare_results_all.
  - destruct (unfiltered_request_outcome args p db Hp Ht) as [H | H];
      rewrite H; split; reflexivity.
Qed.

Lemma unfiltered_results_statement_rejected_witness :
  parse_params (rt := Sample.rt) Sample.all_nearby = inr (Sample.params 40 (-75) 25 "" 0) /\
  status (fst (Sample.run Sample.all_nearby Sample.providers)) = 500%Z /\
  body_results (fst (Sample.run Sample.all_nearby Sample.providers)) = None.
Proof.
  assert (Hp : parse_params (rt := Sample.rt) Sample.all_nearby
               = inr (Sample.params 40 (-75) 25 "" 0)) by reflexivity.
  split; [exact Hp |].
  exact (proj2 (unfiltered_results_statement_rejected
                  Sample.rt Sample.all_nearby _ Sample.providers Hp eq_refl)).
Defined.

(** The handler on the sample rows, without filter: the count statement
    runs, the results statement is rejected. *)
Example unfiltered_request_on_sample :
  Sample.run Sample.all_nearby Sample.providers
  = (database_error (Sqlite.syntax_error "WHERE"),
     [Connect; count_statement (Sample.params 40 (-75) 25 "" 0);
      results_statement (Sample.params 40 (-75) 25 "" 0); Close]).
Proof. reflexivity. Qed.

(** The join of the filtered statements has no grouping after it: a
    provider stored with the same code twice is two rows of the join that
    pass the filter. *)
Example join_row_per_stored_code :
  filter (Sqlite.where_holds (query_params (Sample.params 40 (-75) 25 "101Y00000X" 0))
                             [Sqlite.TaxonomyEquals])
         (Sqlite.from_rows true [Sample.counselor])
  = [(Sample.counselor, VText "101Y00000X"); (Sample.counselor, VText "101Y00000X")].
Proof. reflexivity. Qed.

(** C2: with a non-empty [taxonomy], both statements carry [HAVING]
    without [GROUP BY] over a select list that has no aggregate; SQLite
    rejects the count statement, and the request is answered with HTTP
    500 after that single statement: no provider is returned. *)
Theorem filtered_request_rejected :
  forall (rt : PyRuntime) (args : query_args) (p : search_params) (db : database),
    parse_params args = inr p ->
    truthy (taxonomy_filter p) = true ->
    search_providers Sqlite.execute args db
      = (database_error Sqlite.having_non_aggregate, [Connect; count_statement p; Close]) /\
    Sqlite.prepare (results_query (taxonomy_filter p)) = inl Sqlite.having_non_aggregate.
Proof.
  intros rt args p db Hp Ht. split.
  - apply filtered_request_outcome; assumption.
  - apply prepare_results_filtered, Ht.
Qed.

Lemma filtered_request_rejected_witness :
  parse_params (rt := Sample.rt) Sample.counselors_nearby
    = inr (Sample.params 40 (-75) 25 "101Y00000X" 0) /\
  Sample.run Sample.counselors_nearby Sample.providers
    = (database_error Sqlite.having_non_aggregate,
       [Connect; count_statement (Sample.params 40 (-75) 25 "101Y00000X" 0); Close]).
Proof.
  assert (Hp : parse_params (rt := Sample.rt) Sample.counselors_nearby
               = inr (Sample.params 40 (-75) 25 "101Y00000X" 0)) by reflexivity.
  split; [exact Hp |].
  exact (proj1 (filtered_request_rejected
                  Sample.rt Sample.counselors_nearby _ Sample.providers Hp eq_refl)).
Defined.

(** C3: no response to a request that passes validation carries a
    [total]: the count, when the count statement runs, is dropped with
    the failure of the results statement. *)
Theorem no_total_returned :
  forall (rt : PyRuntime) (args : query_args) (p : search_params) (db : database),
    parse_params args = inr p ->
    body_total (fst (search_providers Sqlite.execute args db)) = None.
Proof.
  intros rt args p db Hp.
  destruct (valid_request_outcome args p db Hp) as (msg & tr & H).
  rewrite H. reflexivity.
Qed.

Lemma no_total_returned_witness :
  parse_params (rt := Sample.rt) Sample.all_nearby = inr (Sample.params 40 (-75) 25 "" 0) /\
  body_total (fst (Sample.run Sample.all_nearby Sample.providers)) = None.
Proof.
  assert (Hp : parse_params (rt := Sample.rt) Sample.all_nearby
               = inr (Sample.params 40 (-75) 25 "" 0)) by reflexivity.
  split; [exact Hp |].
  exact (no_total_returned Sample.rt Sample.all_nearby _ Sample.providers Hp).
Defined.

(** C4: a row with a latitude and a NULL or empty longitude passes the
    WHERE clause, which tests the latitude only; the distance expression
    is evaluated on it, [radians] raises on the longitude, and the count
    statement fails with it. *)
Theorem unlocated_longitude_reaches_distance :
  forall (rt : PyRuntime) (ulat ulon rad : float) (off : Z)
         (npi name address city state zip : string) (lat : float)
         (codes : list string) (empty : bool),
    let lon := if empty then VText "" else VNull in
    let row := mkProvider npi name address city state zip (VReal lat) lon codes in
    let p := mkParams ulat ulon rad "" off in
    Sqlite.where_holds (query_params p) (Sqlite.q_where count_all_plan) (row, VNull) = true /\
    Sqlite.haversine (VReal ulat) (VReal ulon) (latitude row) (longitude row) = None /\
    Sqlite.execute (count_query (taxonomy_filter p)) (query_params p) [row]
      = inl (SqliteError Sqlite.udf_raised).
Proof.
  intros rt ulat ulon rad off npi name address city state zip lat codes empty.
  cbv zeta.
  assert (Hh : forall a b, Sqlite.haversine a b (VReal lat)
                 (if empty then VText "" else VNull) = None).
  { intros a b. unfold Sqlite.haversine, Sqlite.and_then.
    destruct (Sqlite.udf math_radians a); [| reflexivity].
    destruct (math_cos f); [| reflexivity].
    destruct (Sqlite.udf math_radians (VReal lat)); [| reflexivity].
    destruct (math_cos f1); [| reflexivity].
    destruct empty; reflexivity. }
  split; [reflexivity |]. split; [apply Hh |].
  cbn [taxonomy_filter]. rewrite execute_count_all.
  unfold Sqlite.run, Sqlite.run_rows. cbn.
  unfold Sqlite.bound. cbn. rewrite Hh. reflexivity.
Qed.

(** The same on the sample runtime: one row without longitude fails
    every request that has no filter, at the count statement. *)
Example half_located_row_fails_count :
  Sample.run Sample.all_nearby [Sample.counselor; Sample.half_located]
  = (database_error Sqlite.udf_raised,
     [Connect; count_statement (Sample.params 40 (-75) 25 "" 0); Close]).
Proof. reflexivity. Qed.




(** C9: a request that passes validation is answered with the database
    error body and HTTP 500, not with the success object. *)
Theorem valid_request_answered_with_server_error :
  forall (rt : PyRuntime) (args : query_args) (p : search_params) (db : database),
    parse_params args = inr p ->
    (exists msg, fst (search_providers Sqlite.execute args db) = database_error msg) /\
    status (fst (search_providers Sqlite.execute args db)) <> 200%Z.
Proof.
  intros rt args p db Hp.
  destruct (valid_request_outcome args p db Hp) as (msg & tr & H).
  rewrite H. split.
  - exists msg. reflexivity.
  - simpl. discriminate.
Qed.

Lemma valid_request_answered_with_server_error_witness :
  parse_params (rt := Sample.rt) Sample.no_radius = inr (Sample.params 40 (-75) 25 "" 0) /\
  status (fst (Sample.run Sample.no_radius Sample.providers)) <> 200%Z.
Proof.
  assert (Hp : parse_params (rt := Sample.rt) Sample.no_radius
               = inr (Sample.params 40 (-75) 25 "" 0)) by reflexivity.
  split; [exact Hp |].
  exact (proj2 (valid_request_answered_with_server_error
                  Sample.rt Sample.no_radius _ Sample.providers Hp)).
Defined.

(** ** Validation, beyond the claims *)

Local Open Scope list_scope.

Section ValidationFacts.
Context {rt : PyRuntime}.
Variable execute : string -> bindings -> database -> exn + list row_dict.

Lemma args_get_none_or_str (args : query_args) (key : string) :
  args_get args key PyNone = PyNone \/ exists s, args_get args key PyNone = PyStr s.
Proof.
  induction args as [|[k v] rest IH]; simpl.
  - left. reflexivity.
  - destruct (String.eqb k key); [right; eauto | exact IH].
Qed.

Lemma py_float_required_fails (args : query_args) (key : string) (e : exn) :
  py_float (args_get args key PyNone) = inl e ->
  missing args key \/ not_a_number args key.
Proof.
  intros H. destruct (args_get_none_or_str args key) as [Hn | [s Hs]].
  - left. exact Hn.
  - right. exists s. split; [exact Hs |].
    rewrite Hs in H. simpl in H.
    destruct (float_of_str s); [discriminate | reflexivity].
Qed.

Lemma py_float_optional_fails (args : query_args) (key : string) (z : Z) (e : exn) :
  py_float (args_get args key (PyInt z)) = inl e -> not_a_number args key.
Proof.
  intros H. rewrite args_get_default in H.
  destruct (args_get_none_or_str args key) as [Hn | [s Hs]].
  - rewrite Hn in H. discriminate.
  - exists s. split; [exact Hs |]. rewrite Hs in H. simpl in H.
    destruct (float_of_str s); [discriminate | reflexivity].
Qed.

Lemma py_int_optional_fails (args : query_args) (key : string) (z : Z) (e : exn) :
  py_int (args_get args key (PyInt z)) = inl e -> not_an_integer args key.
Proof.
  intros H. rewrite args_get_default in H.
  destruct (args_get_none_or_str args key) as [Hn | [s Hs]].
  - rewrite Hn in H. discriminate.
  - exists s. split; [exact Hs |]. rewrite Hs in H. simpl in H.
    destruct (int_of_str s); [discriminate | reflexivity].
Qed.

Lemma not_parsed_malformed (args : query_args) (e : exn) :
  parse_params args = inl e -> malformed args.
Proof.
  unfold parse_params, malformed. intros H.
  destruct (py_float (args_get args "lat" PyNone)) as [e1 | lat] eqn:E1.
  { destruct (py_float_required_fails _ _ _ E1); auto. }
  destruct (py_float (args_get args "lon" PyNone)) as [e2 | lon] eqn:E2.
  { destruct (py_float_required_fails _ _ _ E2); auto. }
  destruct (py_float (args_get args "radius" (PyInt 25))) as [e3 | rad] eqn:E3.
  { apply py_float_optional_fails in E3. auto 6. }
  destruct (py_int (args_get args "offset" (PyInt 0))) as [e4 | off] eqn:E4.
  { apply py_int_optional_fails in E4. auto 6. }
  discriminate.
Qed.

(** A request that is parsed opens the connection and is answered with
    200 or 500. *)
Lemma parsed_request_reaches_dataset (args : query_args) (p : search_params)
      (db : database) :
  parse_params args = inr p ->
  hd_error (snd (search_providers execute args db)) = Some Connect /\
  (status (fst (search_providers execute args db)) = 200%Z \/
   status (fst (search_providers execute args db)) = 500%Z).
Proof.
  intros Hp. unfold search_providers. rewrite Hp, database_section_cases.
  cbv zeta.
  destruct (execute (count_query (taxonomy_filter p)) (query_params p) db)
    as [e | rows]; [destruct e; simpl; auto |].
  destruct (first_column rows) as [e | total]; [destruct e; simpl; auto |].
  destruct (execute (results_query (taxonomy_filter p)) (query_params p) db)
    as [e | page]; [destruct e; simpl; auto | simpl; auto].
Qed.

Lemma args_get_skip (a1 a2 : query_args) (k v key : string) (d : pyval) :
  String.eqb k key = false ->
  args_get (a1 ++ (k, v) :: a2) key d = args_get (a1 ++ a2) key d.
Proof.
  intros H. induction a1 as [|[k' v'] a1 IH]; simpl.
  - rewrite H. reflexivity.
  - destruct (String.eqb k' key); [reflexivity | exact IH].
Qed.

Lemma args_get_app_missing (a1 a2 : query_args) (key : string) (d : pyval) :
  missing (a1 ++ a2) key ->
  args_get (a1 ++ a2) key d = d /\ args_get a1 key PyNone = PyNone.
Proof.
  unfold missing. intros H. split.
  - rewrite args_get_default, H. reflexivity.
  - induction a1 as [|[k v] a1 IH]; simpl in *.
    + reflexivity.
    + destruct (String.eqb k key); [discriminate | auto].
Qed.

Lemma args_get_insert (a1 a2 : query_args) (key v : string) (d : pyval) :
  args_get a1 key PyNone = PyNone ->
  args_get (a1 ++ (key, v) :: a2) key d = PyStr v.
Proof.
  intros H. induction a1 as [|[k' v'] a1 IH]; simpl in *.
  - rewrite String.eqb_refl. reflexivity.
  - destruct (String.eqb k' key); [discriminate | auto].
Qed.

Lemma parse_params_skip (a1 a2 : query_args) (k v : string) :
  is_read k = false ->
  parse_params (a1 ++ (k, v) :: a2) = parse_params (a1 ++ a2).
Proof.
  unfold is_read, read_keys. simpl. intros H.
  repeat (apply orb_false_elim in H; destruct H as [? H]).
  unfold parse_params, get_taxonomy.
  rewrite !args_get_skip by assumption. reflexivity.
Qed.

Lemma parse_params_empty_taxonomy (a1 a2 : query_args) :
  missing (a1 ++ a2) "taxonomy" ->
  parse_params (a1 ++ ("taxonomy", "") :: a2) = parse_params (a1 ++ a2).
Proof.
  intros H. unfold parse_params, get_taxonomy.
  destruct (args_get_app_missing a1 a2 "taxonomy" (PyStr "") H) as [H1 H2].
  rewrite (args_get_insert a1 a2 "taxonomy" "" (PyStr "") H2), H1.
  rewrite !args_get_skip by reflexivity. reflexivity.
Qed.

End ValidationFacts.

(** X1: for any engine, a request is answered with HTTP 400 exactly when
    it is malformed ([lat] or [lon] missing or not a number, [radius] or
    [offset] supplied and not convertible), and exactly then the dataset
    is left untouched; no range check rejects a request. *)
Theorem rejected_iff_malformed :
  forall (rt : PyRuntime)
         (execute : string -> bindings -> database -> exn + list row_dict)
         (args : query_args) (db : database),
    (status (fst (search_providers execute args db)) = 400%Z <-> malformed args) /\
    (snd (search_providers execute args db) = [] <-> malformed args).
Proof.
  intros rt execute args db.
  destruct (parse_params args) as [e | p] eqn:Hp.
  - assert (Hm : malformed args) by exact (not_parsed_malformed args e Hp).
    unfold search_providers. rewrite Hp. simpl. split; split; auto.
  - destruct (parsed_request_reaches_dataset execute args p db Hp) as [Hc Hs].
    assert (Hn : ~ malformed args).
    { intros Hm. destruct (malformed_not_parsed args Hm) as [e He]. congruence. }
    split; split; intros H; try contradiction.
    + destruct Hs as [Hs | Hs]; rewrite Hs in H; discriminate.
    + rewrite H in Hc. discriminate.
Qed.

(** X2: in a request that passes validation, an absent [radius] is
    [float(25)], an absent [offset] is 0, an absent [taxonomy] is the
    empty string, and a supplied [taxonomy] is taken as it is written. *)
Theorem absent_parameters_take_defaults :
  forall (rt : PyRuntime) (args : query_args) (p : search_params),
    parse_params args = inr p ->
    (missing args "radius" -> radius p = float_of_Q (inject_Z 25)) /\
    (missing args "offset" -> offset p = 0%Z) /\
    (missing args "taxonomy" -> taxonomy_filter p = "") /\
    (forall s, args_get args "taxonomy" PyNone = PyStr s -> taxonomy_filter p = s).
Proof.
  intros rt args p. unfold parse_params, get_taxonomy, missing.
  destruct (py_float (args_get args "lat" PyNone)); [discriminate |].
  destruct (py_float (args_get args "lon" PyNone)); [discriminate |].
  rewrite (args_get_default args "radius"), (args_get_default args "offset"),
    (args_get_default args "taxonomy").
  destruct (py_float _) as [| rad] eqn:Er; [discriminate |].
  destruct (py_int _) as [| off] eqn:Eo; [discriminate |].
  intros H. inversion H; subst p; clear H. simpl. repeat split.
  - intros Hm. rewrite Hm in Er. simpl in Er. congruence.
  - intros Hm. rewrite Hm in Eo. simpl in Eo. congruence.
  - intros Hm. rewrite Hm. reflexivity.
  - intros s Hs. rewrite Hs. reflexivity.
Qed.

Lemma absent_parameters_take_defaults_witness :
  parse_params (rt := Sample.rt) Sample.no_radius = inr (Sample.params 40 (-75) 25 "" 0) /\
  missing Sample.no_radius "radius" /\
  radius (Sample.params 40 (-75) 25 "" 0) = float_of_Q (PyRuntime := Sample.rt) (inject_Z 25).
Proof.
  assert (Hp : parse_params (rt := Sample.rt) Sample.no_radius
               = inr (Sample.params 40 (-75) 25 "" 0)) by reflexivity.
  split; [exact Hp |]. split; [reflexivity |].
  exact (proj1 (absent_parameters_take_defaults Sample.rt Sample.no_radius _ Hp) eq_refl).
Defined.

(** X3: a query-string parameter other than [lat], [lon], [radius],
    [taxonomy] and [offset] is ignored wherever it stands: the response
    and the dataset log are those of the request without it (a caller
    cannot set the page size with [limit=...]). *)
Theorem unread_parameter_ignored :
  forall (rt : PyRuntime)
         (execute : string -> bindings -> database -> exn + list row_dict)
         (a1 a2 : query_args) (k v : string) (db : database),
    is_read k = false ->
    search_providers execute (a1 ++ (k, v) :: a2) db
    = search_providers execute (a1 ++ a2) db.
Proof.
  intros rt execute a1 a2 k v db H. unfold search_providers.
  rewrite (parse_params_skip a1 a2 k v H). reflexivity.
Qed.

Lemma unread_parameter_ignored_witness :
  is_read "limit" = false /\
  Sample.run ([("lat", "40")] ++ ("limit", "100") :: [("lon", "-75")]) Sample.providers
  = Sample.run ([("lat", "40")] ++ [("lon", "-75")]) Sample.providers.
Proof.
  split; [reflexivity |].
  exact (unread_parameter_ignored Sample.rt Sqlite.execute
           [("lat", "40")] [("lon", "-75")] "limit" "100" Sample.providers eq_refl).
Defined.

(** X4: [taxonomy=] with nothing after it is the same request as one
    without [taxonomy]: same response, same statements, same bound
    values. *)
Theorem empty_taxonomy_same_as_absent :
  forall (rt : PyRuntime)
         (execute : string -> bindings -> database -> exn + list row_dict)
         (a1 a2 : query_args) (db : database),
    missing (a1 ++ a2) "taxonomy" ->
    search_providers execute (a1 ++ ("taxonomy", "") :: a2) db
    = search_providers execute (a1 ++ a2) db.
Proof.
  intros rt execute a1 a2 db H. unfold search_providers.
  rewrite (parse_params_empty_taxonomy a1 a2 H). reflexivity.
Qed.

Lemma empty_taxonomy_same_as_absent_witness :
  missing (Sample.no_radius ++ []) "taxonomy" /\
  Sample.run (Sample.no_radius ++ ("taxonomy", "") :: []) Sample.providers
  = Sample.run (Sample.no_radius ++ []) Sample.providers.
Proof.
  split; [reflexivity |].
  exact (empty_taxonomy_same_as_absent Sample.rt Sqlite.execute
           Sample.no_radius [] Sample.providers eq_refl).
Defined.

(** ** The execution block, beyond the claims *)

(** X5: for any engine and any request, the dataset log is empty, or is
    one connection with the count statement alone, or with the count
    statement followed by the results statement; the results statement
    is executed only after the count was read, and nothing else is ever
    executed. *)
Theorem dataset_log_shapes :
  forall (rt : PyRuntime)
         (execute : string -> bindings -> database -> exn + list row_dict)
         (args : query_args) (db : database),
    snd (search_providers execute args db) = [] \/
    exists p,
      parse_params args = inr p /\
      (snd (search_providers execute args db) = [Connect; count_statement p; Close] \/
       snd (search_providers execute args db)
         = [Connect; count_statement p; results_statement p; Close] /\
       exists rows total,
         execute (count_query (taxonomy_filter p)) (query_params p) db = inr rows /\
         first_column rows = inr total).
Proof.
  intros rt execute args db. unfold search_providers.
  destruct (parse_params args) as [e | p] eqn:Hp; [left; reflexivity |].
  right. exists p. split; [reflexivity |].
  rewrite database_section_cases. cbv zeta.
  destruct (execute (count_query (taxonomy_filter p)) (query_params p) db)
    as [e | rows] eqn:Ec; [left; reflexivity |].
  destruct (first_column rows) as [e | total] eqn:Ef; [left; reflexivity |].
  right.
  destruct (execute (results_query (taxonomy_filter p)) (query_params p) db);
    (split; [reflexivity | eauto]).
Qed.

(** X6: for any engine, every response is of one of three kinds: 400
    with the fixed validation message and no [details]; 500 with one of
    the two fixed messages and a [details] text; or 200 with a payload
    whose [offset] is the parsed offset and whose [limit] is 20. *)
Theorem response_kinds :
  forall (rt : PyRuntime)
         (execute : string -> bindings -> database -> exn + list row_dict)
         (args : query_args) (db : database),
    fst (search_providers execute args db) = fst bad_request \/
    (exists msg details,
        fst (search_providers execute args db) = (ErrorBody msg (Some details), 500%Z) /\
        (msg = "A database error occurred." \/
         msg = "An unexpected server error occurred.")) \/
    (exists p page total,
        parse_params args = inr p /\
        fst (search_providers execute args db)
          = (Payload page total (offset p) 20, 200%Z)).
Proof.
  intros rt execute args db. unfold search_providers.
  destruct (parse_params args) as [e | p] eqn:Hp; [left; reflexivity |].
  right. rewrite database_section_cases. cbv zeta.
  assert (He : forall (e : exn) (tr : list event),
             exists msg details,
               fst (except_response e, tr) = (ErrorBody msg (Some details), 500%Z) /\
               (msg = "A database error occurred." \/
                msg = "An unexpected server error occurred.")).
  { intros e tr. destruct e; simpl; eauto. }
  destruct (execute (count_query (taxonomy_filter p)) (query_params p) db)
    as [e | rows]; [left; apply He |].
  destruct (first_column rows) as [e | total]; [left; apply He |].
  destruct (execute (results_query (taxonomy_filter p)) (query_params p) db)
    as [e | page]; [left; apply He |].
  right. exists p, page, total. split; reflexivity.
Qed.



Lemma payload_assembled_witness :
  parse_params (rt := Sample.rt) Sample.physicians_next_page
    = inr (Sample.params (69 # 2) (-118) 10 "207Q00000X" 20) /\
  search_providers (rt := Sample.rt) (Sample.canned (count_row 2))
                   Sample.physicians_next_page Sample.providers
  = ((Payload (count_row 2) (VInt 2) 20 20, 200%Z),
     [Connect; count_statement (Sample.params (69 # 2) (-118) 10 "207Q00000X" 20);
      results_statement (Sample.params (69 # 2) (-118) 10 "207Q00000X" 20); Close]).
Proof.
  assert (Hp : parse_params (rt := Sample.rt) Sample.physicians_next_page
               = inr (Sample.params (69 # 2) (-118) 10 "207Q00000X" 20)) by reflexivity.
  split; [exact Hp |].
  exact (payload_assembled Sample.rt (Sample.canned (count_row 2))
           Sample.physicians_next_page _ Sample.providers
           (count_row 2) (count_row 2) (VInt 2) Hp eq_refl eq_refl eq_refl).
Defined.

(** ** The statements on SQLite, beyond the claims *)

Section StatementFacts.
Context {rt : PyRuntime}.

Lemma filtered_text (t : string) :
  truthy t = true ->
  count_query t = count_query "x" /\ results_query t = results_query "x".
Proof.
  intros H. unfold count_query, results_query, base_query, where_clauses.
  rewrite H. split; reflexivity.
Qed.

Lemma and_then_some {A B : Type} (o : option A) (k : A -> option B) (b : B) :
  Sqlite.and_then o k = Some b -> exists a, o = Some a /\ k a = Some b.
Proof. destruct o as [a |]; simpl; [eauto | discriminate]. Qed.

Lemma udf_some (f : float -> option float) (v : sqlval) (x : float) :
  Sqlite.udf f v = Some x -> numeric v.
Proof. destruct v; simpl; [discriminate | trivial | trivial | discriminate ..]. Qed.

Lemma distances_length (params : bindings) (rows : list Sqlite.joined)
      (ds : list (Sqlite.joined * float)) :
  Sqlite.distances params rows = Some ds -> List.length ds = List.length rows.
Proof.
  revert ds. induction rows as [|r rows IH]; simpl; intros ds H.
  - inversion H. reflexivity.
  - apply and_then_some in H. destruct H as (d & _ & H).
    apply and_then_some in H. destruct H as (ds' & Hds & H).
    inversion H. simpl. f_equal. apply IH, Hds.
Qed.

Lemma distances_ext (params1 params2 : bindings) (rows : list Sqlite.joined) :
  Sqlite.bound "user_lat" params1 = Sqlite.bound "user_lat" params2 ->
  Sqlite.bound "user_lon" params1 = Sqlite.bound "user_lon" params2 ->
  Sqlite.distances params1 rows = Sqlite.distances params2 rows.
Proof.
  intros Hlat Hlon. induction rows as [|r rows IH]; simpl.
  - reflexivity.
  - rewrite Hlat, Hlon, IH. reflexivity.
Qed.

(** The rows the count statement without filter counts. *)
Lemma run_rows_count_all (params : bindings) (db : database) :
  Sqlite.run_rows count_all_plan params db
  = match Sqlite.distances params
            (Sqlite.group_by_npi []
               (filter (Sqlite.where_holds params (Sqlite.q_where count_all_plan))
                       (map (fun p => (p, VNull)) db))) with
    | None => inl (SqliteError Sqlite.udf_raised)
    | Some ds => inr (filter (fun r => Sqlite.within params (snd r)) ds)
    end.
Proof.
  unfold Sqlite.run_rows. simpl.
  destruct (Sqlite.distances params _); reflexivity.
Qed.

Lemma where_count_all (params1 params2 : bindings) (r : Sqlite.joined) :
  Sqlite.where_holds params1 (Sqlite.q_where count_all_plan) r
  = Sqlite.where_holds params2 (Sqlite.q_where count_all_plan) r.
Proof. reflexivity. Qed.

Lemma run_rows_count_all_ext (params1 params2 : bindings) (db : database) :
  Sqlite.bound "user_lat" params1 = Sqlite.bound "user_lat" params2 ->
  Sqlite.bound "user_lon" params1 = Sqlite.bound "user_lon" params2 ->
  Sqlite.bound "radius" params1 = Sqlite.bound "radius" params2 ->
  Sqlite.run_rows count_all_plan params1 db = Sqlite.run_rows count_all_plan params2 db.
Proof.
  intros Hlat Hlon Hrad. rewrite !run_rows_count_all.
  rewrite (filter_ext _ _ (where_count_all params1 params2)).
  rewrite (distances_ext params1 params2 _ Hlat Hlon).
  destruct (Sqlite.distances params2 _) as [ds |]; [| reflexivity].
  f_equal. apply filter_ext. intros r. unfold Sqlite.within.
  rewrite Hrad. reflexivity.
Qed.

Lemma group_by_npi_spec (seen : list string) (rows : list Sqlite.joined) :
  NoDup (map (fun r => NPI (fst r)) (Sqlite.group_by_npi seen rows)) /\
  forall x, In x (map (fun r => NPI (fst r)) (Sqlite.group_by_npi seen rows)) ->
            ~ In x seen /\ In x (map (fun r => NPI (fst r)) rows).
Proof.
  revert seen. induction rows as [|r rows IH]; intros seen; simpl.
  - split; [constructor | intros x []].
  - destruct (existsb (String.eqb (NPI (fst r))) seen) eqn:E.
    + destruct (IH seen) as [Hn Hi]. split; [exact Hn |].
      intros x Hx. destruct (Hi x Hx). auto.
    + destruct (IH (NPI (fst r) :: seen)) as [Hn Hi]. split.
      * simpl. constructor; [| exact Hn].
        intros Hx. destruct (Hi _ Hx) as [Hs _]. apply Hs. left. reflexivity.
      * simpl. intros x [Hx | Hx].
        -- subst x. split; [| left; reflexivity].
           intros Hs.
           assert (Ht : existsb (String.eqb (NPI (fst r))) seen = true).
           { apply existsb_exists. exists (NPI (fst r)).
             split; [exact Hs | apply String.eqb_refl]. }
           congruence.
        -- destruct (Hi x Hx) as [Hs Hr]. split; [| right; exact Hr].
           intros Hs'. apply Hs. right. exact Hs'.
Qed.

Lemma count_all_rows_bound (params : bindings) (db : database)
      (rows : list (Sqlite.joined * float)) :
  Sqlite.run_rows count_all_plan params db = inr rows ->
  (List.length rows <= distinct_npis db)%nat.
Proof.
  rewrite run_rows_count_all.
  destruct (Sqlite.distances params _) as [ds |] eqn:E; [| discriminate].
  intros H. inversion H; subst rows; clear H.
  apply distances_length in E.
  eapply Nat.le_trans; [apply filter_length_le |]. rewrite E.
  destruct (group_by_npi_spec []
              (filter (Sqlite.where_holds params (Sqlite.q_where count_all_plan))
                      (map (fun p => (p, VNull)) db))) as [Hn Hi].
  rewrite <- (length_map (fun r : Sqlite.joined => NPI (fst r))).
  unfold distinct_npis. apply NoDup_incl_length; [exact Hn |].
  intros x Hx. apply nodup_In. destruct (Hi x Hx) as [_ Hr].
  apply in_map_iff in Hr. destruct Hr as (r & Hr & Hin).
  apply filter_In in Hin. destruct Hin as [Hin _].
  apply in_map_iff in Hin. destruct Hin as (q & Hq & Hdb).
  subst r x. simpl. apply in_map. exact Hdb.
Qed.

End StatementFacts.

(** X9: every named placeholder of the count and of the results
    statement, for any value of [taxonomy], is a key of [query_params]:
    no statement is refused for a missing binding. *)
Theorem placeholders_all_bound :
  forall (rt : PyRuntime) (t : string) (p : search_params),
    Forall (fun name => Sqlite.unbound (query_params p) name = false)
           (Sqlite.named_parameters (Sqlite.tokens (count_query t)) ++
            Sqlite.named_parameters (Sqlite.tokens (results_query t))).
Proof.
  intros rt t p.
  assert (Hall : Sqlite.named_parameters (Sqlite.tokens (count_query "")) ++
                 Sqlite.named_parameters (Sqlite.tokens (results_query ""))
                 = ["user_lat"; "user_lon"; "user_lat"; "radius";
                    "user_lat"; "user_lon"; "user_lat"; "radius"; "limit"; "offset"])
    by (vm_compute; reflexivity).
  assert (Hfil : Sqlite.named_parameters (Sqlite.tokens (count_query "x")) ++
                 Sqlite.named_parameters (Sqlite.tokens (results_query "x"))
                 = ["user_lat"; "user_lon"; "user_lat"; "taxonomy"; "radius";
                    "user_lat"; "user_lon"; "user_lat"; "taxonomy"; "radius";
                    "limit"; "offset"])
    by (vm_compute; reflexivity).
  destruct (truthy_cases t) as [-> | Ht].
  - rewrite Hall. repeat constructor.
  - destruct (filtered_text t Ht) as [-> ->]. rewrite Hfil. repeat constructor.
Qed.

(** X10: the count without filter does not depend on pagination: two
    requests without filter that agree on [lat], [lon] and [radius] get
    the same outcome of the count statement on the same rows, whatever
    their [offset]. *)
Theorem unfiltered_count_ignores_offset :
  forall (rt : PyRuntime) (p1 p2 : search_params) (db : database),
    taxonomy_filter p1 = "" ->
    taxonomy_filter p2 = "" ->
    user_lat p1 = user_lat p2 ->
    user_lon p1 = user_lon p2 ->
    radius p1 = radius p2 ->
    Sqlite.execute (count_query (taxonomy_filter p1)) (query_params p1) db
    = Sqlite.execute (count_query (taxonomy_filter p2)) (query_params p2) db.
Proof.
  intros rt p1 p2 db H1 H2 Hlat Hlon Hrad. rewrite H1, H2, !execute_count_all.
  unfold Sqlite.run.
  rewrite (run_rows_count_all_ext (query_params p1) (query_params p2) db).
  - reflexivity.
  - unfold Sqlite.bound. simpl. rewrite Hlat. reflexivity.
  - unfold Sqlite.bound. simpl. rewrite Hlon. reflexivity.
  - unfold Sqlite.bound. simpl. rewrite Hrad. reflexivity.
Qed.

Lemma unfiltered_count_ignores_offset_witness :
  Sqlite.execute (rt := Sample.rt) (count_query "")
                 (query_params (Sample.params 40 (-75) 25 "" 0)) Sample.providers
  = Sqlite.execute (rt := Sample.rt) (count_query "")
                   (query_params (Sample.params 40 (-75) 25 "" 20)) Sample.providers.
Proof.
  exact (unfiltered_count_ignores_offset Sample.rt
           (Sample.params 40 (-75) 25 "" 0) (Sample.params 40 (-75) 25 "" 20)
           Sample.providers eq_refl eq_refl eq_refl eq_refl eq_refl).
Defined.

(** X11: a stored row whose latitude is NULL or empty has no effect on
    the count without filter: the statement behaves as on the table
    without that row, and the distance expression is not evaluated on
    it. *)
Theorem row_without_latitude_not_counted :
  forall (rt : PyRuntime) (p : search_params) (db1 db2 : database) (r : provider),
    no_latitude r ->
    Sqlite.execute (count_query "") (query_params p) (db1 ++ r :: db2)
    = Sqlite.execute (count_query "") (query_params p) (db1 ++ db2).
Proof.
  intros rt p db1 db2 r Hr. rewrite !execute_count_all. unfold Sqlite.run.
  rewrite !run_rows_count_all, !map_app, !filter_app. cbn [map filter].
  assert (Hf : Sqlite.where_holds (query_params p) (Sqlite.q_where count_all_plan)
                 (r, VNull) = false).
  { unfold Sqlite.where_holds. simpl.
    destruct Hr as [Hr | Hr]; rewrite Hr; reflexivity. }
  rewrite Hf. reflexivity.
Qed.

Lemma row_without_latitude_not_counted_witness :
  no_latitude (mkProvider (rt := Sample.rt) "1003000159" "D. Unlocated" "" "" "" ""
                          VNull VNull []) /\
  Sqlite.execute (rt := Sample.rt) (count_query "")
    (query_params (Sample.params 40 (-75) 25 "" 0))
    ([Sample.counselor]
       ++ mkProvider (rt := Sample.rt) "1003000159" "D. Unlocated" "" "" "" ""
                     VNull VNull [] :: [Sample.physician])
  = Sqlite.execute (rt := Sample.rt) (count_query "")
      (query_params (Sample.params 40 (-75) 25 "" 0))
      ([Sample.counselor] ++ [Sample.physician]).
Proof.
  assert (H : no_latitude (mkProvider (rt := Sample.rt) "1003000159" "D. Unlocated"
                                      "" "" "" "" VNull VNull []))
    by (left; reflexivity).
  split; [exact H |].
  exact (row_without_latitude_not_counted Sample.rt (Sample.params 40 (-75) 25 "" 0)
           [Sample.counselor] [Sample.physician] _ H).
Defined.

(** X12: the count without filter counts each identifier at most once:
    when the statement succeeds its count lies between 0 and the number
    of different NPIs stored, also when a provider is stored in more
    than one row. *)
Theorem unfiltered_count_at_most_one_per_npi :
  forall (rt : PyRuntime) (p : search_params) (db : database) (n : Z),
    Sqlite.execute (count_query "") (query_params p) db = inr (count_row n) ->
    (0 <= n <= Z.of_nat (distinct_npis db))%Z.
Proof.
  intros rt p db n. rewrite execute_count_all. unfold Sqlite.run, count_row.
  destruct (Sqlite.run_rows count_all_plan (query_params p) db) as [e | rows] eqn:E;
    [discriminate |].
  intros H. inversion H; subst n; clear H.
  apply count_all_rows_bound in E. split.
  - apply Nat2Z.is_nonneg.
  - apply Nat2Z.inj_le. exact E.
Qed.

Lemma unfiltered_count_at_most_one_per_npi_witness :
  Sqlite.execute (rt := Sample.rt) (count_query "")
    (query_params (Sample.params 40 (-75) 25000 "" 0))
    (Sample.counselor :: Sample.providers) = inr (count_row 2) /\
  (0 <= 2 <= Z.of_nat (distinct_npis (Sample.counselor :: Sample.providers)))%Z.
Proof.
  assert (H : Sqlite.execute (rt := Sample.rt) (count_query "")
                (query_params (Sample.params 40 (-75) 25000 "" 0))
                (Sample.counselor :: Sample.providers) = inr (count_row 2))
    by reflexivity.
  split; [exact H |].
  exact (unfiltered_count_at_most_one_per_npi Sample.rt _ _ 2%Z H).
Defined.

(** X13: the distance expression has a value only on numbers: when it
    evaluates, the two bound coordinates and the stored latitude and
    longitude are INTEGER or REAL; on NULL or TEXT a registered function
    raises. *)
Theorem distance_needs_numbers :
  forall (rt : PyRuntime) (ulat ulon lat lon : sqlval),
    Sqlite.haversine ulat ulon lat lon <> None ->
    numeric ulat /\ numeric ulon /\ numeric lat /\ numeric lon.
Proof.
  intros rt ulat ulon lat lon Hd.
  destruct (Sqlite.haversine ulat ulon lat lon) as [d |] eqn:H; [| contradiction].
  unfold Sqlite.haversine in H.
  apply and_then_some in H. destruct H as (a1 & H1 & H).
  apply and_then_some in H. destruct H as (a2 & _ & H).
  apply and_then_some in H. destruct H as (a3 & H3 & H).
  apply and_then_some in H. destruct H as (a4 & _ & H).
  apply and_then_some in H. destruct H as (a5 & H5 & H).
  apply and_then_some in H. destruct H as (a6 & H6 & _).
  apply udf_some in H1, H3, H5, H6. auto.
Qed.

Lemma distance_needs_numbers_witness :
  Sqlite.haversine (rt := Sample.rt) (Sample.real 40) (Sample.real (-75))
                   (latitude Sample.counselor) (longitude Sample.counselor) <> None /\
  numeric (Sample.real 40) /\ numeric (Sample.real (-75)) /\
  numeric (latitude Sample.counselor) /\ numeric (longitude Sample.counselor).
Proof.
  assert (H : Sqlite.haversine (rt := Sample.rt) (Sample.real 40) (Sample.real (-75))
                (latitude Sample.counselor) (longitude Sample.counselor) <> None).
  { intros E. vm_compute in E. discriminate E. }
  split; [exact H |].
  exact (distance_needs_numbers Sample.rt _ _ _ _ H).
Defined.
